(** * The Python AST bridge of ragex: [parser.py] and [unparser.py]

    [parser.py] turns source text into a JSON document describing the tree
    that Python's [ast] module parses it to; [unparser.py] rebuilds a tree
    from such a document and has [ast] print it back as source text.

    The development follows the two scripts function by function.  Python
    objects are a first-order data type [value]; a [dict] is an association
    list in insertion order; a raised exception is the [Raise] branch of
    [result].  The [ast] module itself (its parser, its printer and the names
    it exports) is not part of the repository: it is a [Section] variable
    here, and the module [Sample] records what CPython answers on a handful
    of inputs.  So is [json.loads] on the standard input of the decoder: a
    run is taken from what it returned or raised ([UnparserRun]), and
    [SampleJson] records what CPython answers on a document. *)

From Stdlib Require Import String Ascii List ZArith Bool Lia DecimalString.
Import ListNotations.
Open Scope string_scope.
Open Scope list_scope.

(** ** Python objects *)

(** What the interpreter keeps for a class of [ast]: its name, the tuple
    [_fields], and the attributes the class itself carries with the value
    [None] (on CPython the optional fields and attributes of a production,
    such as [end_lineno], or [kind] of [Constant]). *)
Record class_info : Type := mkClass {
  c_name : string;
  c_fields : list string;
  c_none_attrs : list string
}.

(** The objects the two scripts touch.  A float is kept by its IEEE bits and
    a complex number by the bits of its two parts: the scripts never compute
    with them.  [VNode c d] is an instance of the [ast] class [c] whose
    instance dictionary is [d]; [VObject] is any other object, known by the
    name of its type. *)
Unset Elimination Schemes.
Inductive value : Type :=
| VNone
| VBool (b : bool)
| VInt (z : Z)
| VFloat (bits : Z)
| VStr (s : string)
| VBytes (s : string)
| VComplex (re im : Z)
| VEllipsis
| VList (items : list value)
| VDict (items : list (string * value))
| VNode (c : class_info) (d : list (string * value))
| VObject (type_name : string).
Set Elimination Schemes.

Definition dict : Type := list (string * value).

(** Induction that reaches under lists, dictionaries and nodes. *)
Section ValueInduction.
Variable P : value -> Prop.
Hypothesis HNone : P VNone.
Hypothesis HBool : forall b, P (VBool b).
Hypothesis HInt : forall z, P (VInt z).
Hypothesis HFloat : forall f, P (VFloat f).
Hypothesis HStr : forall s, P (VStr s).
Hypothesis HBytes : forall s, P (VBytes s).
Hypothesis HComplex : forall re im, P (VComplex re im).
Hypothesis HEllipsis : P VEllipsis.
Hypothesis HList : forall l, Forall P l -> P (VList l).
Hypothesis HDict : forall d, Forall (fun kv => P (snd kv)) d -> P (VDict d).
Hypothesis HNode : forall c d, Forall (fun kv => P (snd kv)) d -> P (VNode c d).
Hypothesis HObject : forall t, P (VObject t).

Fixpoint value_deep_ind (v : value) : P v :=
  match v with
  | VNone => HNone
  | VBool b => HBool b
  | VInt z => HInt z
  | VFloat f => HFloat f
  | VStr s => HStr s
  | VBytes s => HBytes s
  | VComplex re im => HComplex re im
  | VEllipsis => HEllipsis
  | VList l =>
      HList l ((fix all (l : list value) : Forall P l :=
                match l with
                | [] => Forall_nil P
                | x :: r => Forall_cons x (value_deep_ind x) (all r)
                end) l)
  | VDict d =>
      HDict d ((fix all (d : dict) : Forall (fun kv => P (snd kv)) d :=
                match d with
                | [] => Forall_nil _
                | kv :: r => Forall_cons kv (value_deep_ind (snd kv)) (all r)
                end) d)
  | VNode c d =>
      HNode c d ((fix all (d : dict) : Forall (fun kv => P (snd kv)) d :=
                  match d with
                  | [] => Forall_nil _
                  | kv :: r => Forall_cons kv (value_deep_ind (snd kv)) (all r)
                  end) d)
  | VObject t => HObject t
  end.
End ValueInduction.

(** ** Dictionaries *)

(** [d.get(k)]: the first binding of [k]. *)
Fixpoint lookup (k : string) (d : dict) : option value :=
  match d with
  | [] => None
  | (k', v) :: r => if String.eqb k k' then Some v else lookup k r
  end.

(** [k in d]. *)
Definition has_key (k : string) (d : dict) : bool :=
  match lookup k d with Some _ => true | None => false end.

(** [d[k] = v]: a key already present keeps its place and takes the new
    value, a new key goes to the end. *)
Fixpoint dict_set (k : string) (v : value) (d : dict) : dict :=
  match d with
  | [] => [(k, v)]
  | (k', v') :: r =>
      if String.eqb k k' then (k, v) :: r else (k', v') :: dict_set k v r
  end.

Definition keys (d : dict) : list string := map fst d.

(** ** Attributes of a node *)

(** [getattr(node, k)]: the instance dictionary first, then the class. *)
Definition getattr (c : class_info) (d : dict) (k : string) : option value :=
  match lookup k d with
  | Some v => Some v
  | None => if existsb (String.eqb k) (c_none_attrs c) then Some VNone else None
  end.

Definition hasattr (c : class_info) (d : dict) (k : string) : bool :=
  match getattr c d k with Some _ => true | None => false end.

(** [ast.iter_fields(node)]: the names of [_fields] in order, each with its
    value, those the node does not have left out. *)
Definition iter_fields (c : class_info) (d : dict) : list (string * value) :=
  flat_map (fun f => match getattr c d f with
                     | Some v => [(f, v)]
                     | None => []
                     end) (c_fields c).

(** ** Exceptions *)

(** The attributes of a [SyntaxError] that [parse_source] reads.  [msg] is
    a string, or [None] for an error raised with no argument; the other three
    are copied as they are, whatever they hold. *)
Record syntax_error : Type := mkSyntaxError {
  se_msg : option string;
  se_lineno : value;
  se_offset : value;
  se_text : value
}.

(** Where an exception sits in the class hierarchy, as far as the [except]
    clauses of the scripts tell classes apart. *)
Inductive exn_class : Type :=
| IsSyntaxError (info : syntax_error)
| IsException
| IsBaseException.

(** A raised exception: its place in the hierarchy, [type(e).__name__] and
    [str(e)]. *)
Record exn : Type := mkExn {
  e_class : exn_class;
  e_type : string;
  e_str : string
}.

(** [isinstance(e, Exception)]. *)
Definition is_Exception (e : exn) : bool :=
  match e_class e with
  | IsBaseException => false
  | _ => true
  end.

Definition ValueError (msg : string) : exn := mkExn IsException "ValueError" msg.
Definition TypeError (msg : string) : exn := mkExn IsException "TypeError" msg.

Inductive result (A : Type) : Type :=
| Ok (a : A)
| Raise (e : exn).
Arguments Ok {A} a.
Arguments Raise {A} e.

Definition bind {A B : Type} (m : result A) (k : A -> result B) : result B :=
  match m with
  | Ok a => k a
  | Raise e => Raise e
  end.

Notation "x <- m ;; k" := (bind m (fun x => k))
  (at level 61, m at next level, right associativity).

(** A list comprehension whose body may raise: left to right, stopping at
    the first exception. *)
Definition comprehension {A B : Type} (f : A -> result B) : list A -> result (list B) :=
  fix go (l : list A) : result (list B) :=
    match l with
    | [] => Ok []
    | x :: r => y <- f x ;; ys <- go r ;; Ok (y :: ys)
    end.

(** ** parser.py *)

Definition position_keys : list string :=
  ["lineno"; "col_offset"; "end_lineno"; "end_col_offset"].

(** The four [if hasattr(node, k): result[k] = node.k] of [ast_to_dict]. *)
Definition copy_position (c : class_info) (d : dict) (k : string) (result : dict) : dict :=
  match getattr c d k with
  | Some v => dict_set k v result
  | None => result
  end.

Definition copy_positions (c : class_info) (d : dict) (result : dict) : dict :=
  fold_left (fun result k => copy_position c d k result) position_keys result.

(** The loop [for field, value in ast.iter_fields(node)], given the encoder
    to call on the values. *)
Definition encode_field (enc : value -> value) (result : dict) (fv : string * value) : dict :=
  let (field, value) := fv in
  match value with
  | VList l => dict_set field (VList (map enc l)) result
  | _ => dict_set field (enc value) result
  end.

(** [ast_to_dict].  The recursion is on the structure of the object: the
    values of the instance dictionary are encoded where they stand and the
    loop over the fields then picks them by name; [ast_to_dict_node] below
    is the equation in the shape of the source.  The depth the interpreter
    allows a recursion to reach is not modelled. *)
Fixpoint ast_to_dict (node : value) : value :=
  match node with
  | VNode c d =>
      let result := [("_type", VStr (c_name c))] in
      let result := copy_positions c d result in
      let encoded := map (fun kv => (fst kv, ast_to_dict (snd kv))) d in
      VDict (fold_left (fun result field =>
                          match getattr c encoded field with
                          | Some v => dict_set field v result
                          | None => result
                          end) (c_fields c) result)
  | VList l => VList (map ast_to_dict l)
  | _ => node
  end.

(** What is neither a node nor a list. *)
Definition is_primitive (v : value) : bool :=
  match v with
  | VNode _ _ | VList _ => false
  | _ => true
  end.

(** [record[k]] of an encoded node, [None] where the record has no such
    entry. *)
Definition record_get (k : string) (record : value) : option value :=
  match record with
  | VDict d => lookup k d
  | _ => None
  end.

(** ** json.dumps, json.loads and the standard output *)

Unset Elimination Schemes.
Inductive json : Type :=
| JNull
| JBool (b : bool)
| JInt (z : Z)
| JFloat (bits : Z)
| JStr (s : string)
| JArr (items : list json)
| JObj (members : list (string * json)).
Set Elimination Schemes.

(** [type(o).__name__], for the message of [json.dumps]. *)
Definition type_name_of (v : value) : string :=
  match v with
  | VNone => "NoneType"
  | VBool _ => "bool"
  | VInt _ => "int"
  | VFloat _ => "float"
  | VStr _ => "str"
  | VBytes _ => "bytes"
  | VComplex _ _ => "complex"
  | VEllipsis => "ellipsis"
  | VList _ => "list"
  | VDict _ => "dict"
  | VNode c _ => c_name c
  | VObject t => t
  end.

(** [json.dumps(o)] with its default encoder: [None], booleans, numbers,
    strings, lists and dictionaries with string keys are written, any other
    object raises [TypeError].  The document is kept as a tree: with the
    default settings its text holds no line break. *)
Fixpoint json_dumps (o : value) : result json :=
  match o with
  | VNone => Ok JNull
  | VBool b => Ok (JBool b)
  | VInt z => Ok (JInt z)
  | VFloat f => Ok (JFloat f)
  | VStr s => Ok (JStr s)
  | VList l => js <- comprehension json_dumps l ;; Ok (JArr js)
  | VDict d =>
      ms <- comprehension (fun kv => j <- json_dumps (snd kv) ;; Ok (fst kv, j)) d ;;
      Ok (JObj ms)
  | _ => Raise (TypeError ("Object of type " ++ type_name_of o ++ " is not JSON serializable"))
  end.

(** [json.loads] on a well-formed document: of a member name written
    twice the last value is kept, in the place of the first. *)
Fixpoint json_loads (j : json) : value :=
  match j with
  | JNull => VNone
  | JBool b => VBool b
  | JInt z => VInt z
  | JFloat f => VFloat f
  | JStr s => VStr s
  | JArr l => VList (map json_loads l)
  | JObj ms =>
      VDict (fold_left (fun d kv => dict_set (fst kv) (snd kv) d)
               (map (fun kv => (fst kv, json_loads (snd kv))) ms) [])
  end.

(** What a run of a script leaves behind: the lines on standard output and
    the exception that ended it, if one did (the interpreter then prints the
    traceback on standard error and exits with status 1). *)
Record process : Type := mkProcess {
  stdout : list json;
  uncaught : option exn
}.

(** [print(json.dumps(o))]. *)
Definition print_json (o : value) : process :=
  match json_dumps o with
  | Ok line => mkProcess [line] None
  | Raise e => mkProcess [] (Some e)
  end.

(** The two shapes of envelope the scripts build. *)
Definition failure (error : dict) : value :=
  VDict [("ok", VBool false); ("error", VDict error)].

Definition plain_error (type msg : string) : dict :=
  [("type", VStr type); ("msg", VStr msg)].

Module Parser.
Section WithOracle.

(** [ast.parse(source)]: the tree, or the exception it raises. *)
Variable ast_parse : string -> result value.

(** [str(e.msg)]; a [SyntaxError] always has the attribute [msg], so the
    test [hasattr(e, 'msg')] of the source never fails. *)
Definition str_msg (e : syntax_error) : string :=
  match se_msg e with
  | Some m => m
  | None => "None"
  end.

Definition parse_source (source : string) : result value :=
  match (tree <- ast_parse source ;;
         Ok (VDict [("ok", VBool true); ("ast", ast_to_dict tree)])) with
  | Ok r => Ok r
  | Raise e =>
      match e_class e with
      | IsSyntaxError info =>
          Ok (failure [("type", VStr "SyntaxError");
                       ("msg", VStr (str_msg info));
                       ("lineno", se_lineno info);
                       ("offset", se_offset info);
                       ("text", se_text info)])
      | IsException => Ok (failure (plain_error (e_type e) (e_str e)))
      | IsBaseException => Raise e
      end
  end.

(** [main], from the text read on standard input. *)
Definition main (source : string) : process :=
  match parse_source source with
  | Ok r => print_json r
  | Raise e => mkProcess [] (Some e)
  end.

End WithOracle.
End Parser.

Module Unparser.

(** What a name of the [ast] module is bound to: a node class, or
    something else, known by what calling it with keyword arguments does (for
    an object that is not callable, raising [TypeError]). *)
Inductive attribute : Type :=
| NodeClass (c : class_info)
| OtherObject (call : dict -> result value).

(** The call of [node_class] with the keywords [fields].  A node class of
    Python 3.9 to 3.12 accepts any keyword and stores each as an attribute of
    the new node. *)
Definition construct (node_class : attribute) (fields : dict) : result value :=
  match node_class with
  | NodeClass c => Ok (VNode c fields)
  | OtherObject call => call fields
  end.

(** The test of the loop of [dict_to_ast] that makes it [continue]. *)
Definition skipped (key : string) : bool :=
  String.prefix "_" key || existsb (String.eqb key) position_keys.

(** The loop [for key, value in data.items()], given the decoder to call on
    the values; [fields] is the dictionary built so far. *)
Definition prepare_fields (dec : value -> result value) : dict -> dict -> result dict :=
  fix loop (items fields : dict) : result dict :=
    match items with
    | [] => Ok fields
    | (key, value) :: rest =>
        if skipped key then loop rest fields
        else
          match value with
          | VList l =>
              v <- comprehension dec l ;;
              loop rest (dict_set key (VList v) fields)
          | _ =>
              v <- dec value ;;
              loop rest (dict_set key v fields)
          end
    end.

Section WithOracle.

(** [getattr(ast, name, None)] for a string [name]. *)
Variable ast_module : string -> option attribute.

(** [ast.unparse(tree)]: the text, or the exception it raises. *)
Variable ast_unparse : value -> result string.

(** [dict_to_ast].  [getattr] refuses a name that is not a string with a
    [TypeError] (the wording is that of Python 3.9 and 3.10). *)
Fixpoint dict_to_ast (data : value) : result value :=
  match data with
  | VDict d =>
      match lookup "_type" d with
      | Some node_type =>
          match node_type with
          | VStr name =>
              match ast_module name with
              | None => Raise (ValueError ("Unknown AST node type: " ++ name))
              | Some node_class =>
                  fields <- prepare_fields dict_to_ast d [] ;;
                  construct node_class fields
              end
          | _ => Raise (TypeError "getattr(): attribute name must be string")
          end
      | None => Ok data
      end
  | VList l => items <- comprehension dict_to_ast l ;; Ok (VList items)
  | _ => Ok data
  end.

(** [unparse_ast] on an interpreter that has [ast.unparse] (Python 3.9 and
    later, the first branch of the source). *)
Definition unparse_ast (ast_dict : value) : result string :=
  match (tree <- dict_to_ast ast_dict ;; ast_unparse tree) with
  | Ok source => Ok source
  | Raise e =>
      if is_Exception e
      then Raise (ValueError ("Failed to unparse AST: " ++ e_str e))
      else Raise e
  end.

Definition invalid_format : value :=
  failure (plain_error "ValueError" "Invalid AST format").

(** [isinstance(data, dict) and '_type' in data]. *)
Definition is_discriminated (data : value) : bool :=
  match data with
  | VDict d => has_key "_type" d
  | _ => false
  end.

(** [main], from the document read on standard input.  The document is
    taken as loaded: [UnparserRun.main] below is the run from what
    [json.loads] returned or raised. *)
Definition main (document : json) : process :=
  let data := json_loads document in
  if negb (is_discriminated data) then print_json invalid_format
  else
    match unparse_ast data with
    | Ok source => print_json (VDict [("ok", VBool true); ("source", VStr source)])
    | Raise e =>
        if is_Exception e
        then print_json (failure (plain_error (e_type e) (e_str e)))
        else mkProcess [] (Some e)
    end.

End WithOracle.
End Unparser.

(** ** A sample of CPython's [ast] module

    What CPython 3.9 answers on the inputs the statements below are tried on.
    The sample is a table, not a parser or a printer: a text, a name or a
    tree outside it is answered with an exception that only marks the gap. *)
Module Sample.

Definition Module_ : class_info := mkClass "Module" ["body"; "type_ignores"] [].
Definition Expr : class_info :=
  mkClass "Expr" ["value"] ["end_lineno"; "end_col_offset"].
Definition Name : class_info :=
  mkClass "Name" ["id"; "ctx"] ["end_lineno"; "end_col_offset"].
Definition Constant : class_info :=
  mkClass "Constant" ["value"; "kind"] ["kind"; "end_lineno"; "end_col_offset"].
Definition Load : class_info := mkClass "Load" [] [].
Definition TypeIgnore : class_info := mkClass "TypeIgnore" ["lineno"; "tag"] [].

(** The position attributes of a node that spans the columns [c0] to [c1]
    of line 1. *)
Definition on_line_1 (c0 c1 : Z) : dict :=
  [("lineno", VInt 1); ("col_offset", VInt c0);
   ("end_lineno", VInt 1); ("end_col_offset", VInt c1)].

Definition module_of (body : list value) : value :=
  VNode Module_ [("body", VList body); ("type_ignores", VList [])].

(** The statement made of one expression that fills line 1 up to column
    [width]. *)
Definition expr_stmt (class : class_info) (fields : dict) (width : Z) : value :=
  VNode Expr (("value", VNode class (fields ++ on_line_1 0 width))
              :: on_line_1 0 width).

Definition SyntaxError (info : syntax_error) (str : string) : exn :=
  mkExn (IsSyntaxError info) "SyntaxError" str.

Definition AttributeError (msg : string) : exn :=
  mkExn IsException "AttributeError" msg.

Definition newline : string := String (ascii_of_nat 10) EmptyString.

(** [ast.parse] on four texts: the empty one, [x], [...] and [def f(:]. *)
Definition ast_parse (source : string) : result value :=
  if String.eqb source EmptyString then Ok (module_of [])
  else if String.eqb source "x" then
    Ok (module_of [expr_stmt Name [("id", VStr "x"); ("ctx", VNode Load [])] 1])
  else if String.eqb source "..." then
    Ok (module_of [expr_stmt Constant [("value", VEllipsis); ("kind", VNone)] 3])
  else if String.eqb source "def f(:" then
    Raise (SyntaxError
             (mkSyntaxError (Some "invalid syntax") (VInt 1) (VInt 7)
                (VStr ("def f(:" ++ Sample.newline)))
             "invalid syntax (<unknown>, line 1)")
  else Raise (SyntaxError (mkSyntaxError None VNone VNone VNone) "not in the sample").

(** Six node classes, the function [ast.parse] called with the one keyword
    [source], and the integer constant [ast.PyCF_ONLY_AST]. *)
Definition ast_module (name : string) : option Unparser.attribute :=
  if String.eqb name "Module" then Some (Unparser.NodeClass Module_)
  else if String.eqb name "Expr" then Some (Unparser.NodeClass Expr)
  else if String.eqb name "Name" then Some (Unparser.NodeClass Name)
  else if String.eqb name "Constant" then Some (Unparser.NodeClass Constant)
  else if String.eqb name "Load" then Some (Unparser.NodeClass Load)
  else if String.eqb name "TypeIgnore" then Some (Unparser.NodeClass TypeIgnore)
  else if String.eqb name "parse" then
    Some (Unparser.OtherObject
            (fun kwargs =>
               match kwargs with
               | [("source", VStr source)] => ast_parse source
               | _ => Raise (TypeError "not in the sample")
               end))
  else if String.eqb name "PyCF_ONLY_AST" then
    Some (Unparser.OtherObject
            (fun _ => Raise (TypeError "'int' object is not callable")))
  else None.

(** The text of an expression: a name, or the constant [...]. *)
Definition unparse_expr (e : value) : result string :=
  match e with
  | VNode c d =>
      if String.eqb (c_name c) "Name" then
        match getattr c d "id" with
        | Some (VStr id) => Ok id
        | Some _ => Raise (TypeError "not in the sample")
        | None => Raise (AttributeError "'Name' object has no attribute 'id'")
        end
      else if String.eqb (c_name c) "Constant" then
        match getattr c d "value" with
        | Some VEllipsis => Ok "..."
        | Some _ => Raise (TypeError "not in the sample")
        | None => Raise (AttributeError "'Constant' object has no attribute 'value'")
        end
      else Raise (TypeError "not in the sample")
  | _ => Raise (TypeError "not in the sample")
  end.

(** The body of a module: at most one expression statement. *)
Definition unparse_body (c : class_info) (d : dict) : result string :=
  match getattr c d "body" with
  | Some (VList []) => Ok EmptyString
  | Some (VList [VNode c' d']) =>
      if String.eqb (c_name c') "Expr" then
        match getattr c' d' "value" with
        | Some e => unparse_expr e
        | None => Raise (AttributeError "'Expr' object has no attribute 'value'")
        end
      else Raise (TypeError "not in the sample")
  | Some _ => Raise (TypeError "not in the sample")
  | None => Raise (AttributeError "'Module' object has no attribute 'body'")
  end.

(** [ast.unparse] on a module with no type-ignore comment; the printer
    reads [type_ignores] before the body. *)
Definition ast_unparse (tree : value) : result string :=
  match tree with
  | VNode c d =>
      if String.eqb (c_name c) "Module" then
        match getattr c d "type_ignores" with
        | Some (VList []) => unparse_body c d
        | Some _ => Raise (TypeError "not in the sample")
        | None =>
            Raise (AttributeError "'Module' object has no attribute 'type_ignores'")
        end
      else Raise (TypeError "not in the sample")
  | _ => Raise (TypeError "not in the sample")
  end.

End Sample.

(** ** The decoder as a run of the interpreter

    [Unparser.main] starts from a loaded document and follows [dict_to_ast]
    as a function.  A run of the script can end in two more ways:
    [json.loads], called before the first test and outside any [try], raises
    on a standard input it refuses; and the interpreter raises
    [RecursionError] when the document is nested deeper than its stack lets
    [dict_to_ast] go.  Both are decided outside the repository: the first is
    the argument [loaded] of [main], the second the variable [exhausts].

    What an object of the [ast] module that is no node class writes on
    standard output when it is called is not in [Unparser.construct]; the
    statements on runs that call are about documents that name node classes
    only ([names_node_classes] below). *)
Module UnparserRun.
Section WithInterpreter.

Variable ast_module : string -> option Unparser.attribute.
Variable ast_unparse : value -> result string.

(** The message of the [RecursionError] the interpreter raises while
    [dict_to_ast] walks [data], if it raises one. *)
Variable exhausts : value -> option string.

Definition RecursionError (msg : string) : exn :=
  mkExn IsException "RecursionError" msg.

Definition dict_to_ast (data : value) : result value :=
  match exhausts data with
  | Some msg => Raise (RecursionError msg)
  | None => Unparser.dict_to_ast ast_module data
  end.

Definition unparse_ast (ast_dict : value) : result string :=
  match (tree <- dict_to_ast ast_dict ;; ast_unparse tree) with
  | Ok source => Ok source
  | Raise e =>
      if is_Exception e
      then Raise (ValueError ("Failed to unparse AST: " ++ e_str e))
      else Raise e
  end.

(** [main], from what [json.loads(sys.stdin.read())] returned or raised. *)
Definition main (loaded : result value) : process :=
  match loaded with
  | Raise e => mkProcess [] (Some e)
  | Ok data =>
      if negb (Unparser.is_discriminated data) then print_json Unparser.invalid_format
      else
        match unparse_ast data with
        | Ok source => print_json (VDict [("ok", VBool true); ("source", VStr source)])
        | Raise e =>
            if is_Exception e
            then print_json (failure (plain_error (e_type e) (e_str e)))
            else mkProcess [] (Some e)
        end
  end.

End WithInterpreter.
End UnparserRun.

(** ** A sample of CPython's [json.loads]

    What [json.loads] of CPython 3.11 returns for a document: its value, or,
    when the document holds an integer written with more than 4300 digits,
    the [ValueError] of the conversion.  A document nested too deep for the
    interpreter, on which [json.loads] raises [RecursionError], is outside
    the sample. *)
Module SampleJson.

Definition max_str_digits : Z := 4300.

(** The integer is written with more than [max_str_digits] digits. *)
Definition exceeds_limit (z : Z) : bool :=
  Z.leb (10 ^ max_str_digits) (Z.abs z).

(** The number of digits [z] is written with. *)
Definition digits (z : Z) : nat :=
  String.length (NilZero.string_of_uint (N.to_uint (Z.abs_N z))).

Definition too_many_digits (z : Z) : exn :=
  ValueError ("Exceeds the limit (4300) for integer string conversion: value has "
              ++ NilZero.string_of_uint (Nat.to_uint (digits z))
              ++ " digits; use sys.set_int_max_str_digits() to increase the limit").

Fixpoint loads (j : json) : result value :=
  match j with
  | JNull => Ok VNone
  | JBool b => Ok (VBool b)
  | JInt z =>
      if exceeds_limit z then Raise (too_many_digits z) else Ok (VInt z)
  | JFloat f => Ok (VFloat f)
  | JStr s => Ok (VStr s)
  | JArr l => items <- comprehension loads l ;; Ok (VList items)
  | JObj ms =>
      members <- comprehension (fun kv => v <- loads (snd kv) ;; Ok (fst kv, v)) ms ;;
      Ok (VDict (fold_left (fun d kv => dict_set (fst kv) (snd kv) d) members []))
  end.

End SampleJson.

(** ** Vocabulary of the statements *)

(** A JSON value that is an object with a member [_type]. *)
Definition json_is_discriminated (j : json) : bool :=
  match j with
  | JObj ms => existsb (fun kv => String.eqb "_type" (fst kv)) ms
  | _ => false
  end.

(** The failure envelope of the decoder, as it stands on standard output. *)
Definition json_failure (type msg : string) : json :=
  JObj [("ok", JBool false);
        ("error", JObj [("type", JStr type); ("msg", JStr msg)])].

(** One entry of a record, decoded by [dec]. *)
Definition decode_entry (dec : value -> result value) (kv : string * value)
  : result (string * value) :=
  v <- dec (snd kv) ;; Ok (fst kv, v).

(** The entries of a record that the loop of [dict_to_ast] does not skip. *)
Definition construction_inputs (d : dict) : dict :=
  filter (fun kv => negb (Unparser.skipped (fst kv))) d.

(** A tree with nothing but its structural fields: of each node the class
    and the pairs of [ast.iter_fields], taken the same way inside them. *)
Fixpoint fields_only (v : value) : value :=
  match v with
  | VNode c d =>
      VNode c (iter_fields c (map (fun kv => (fst kv, fields_only (snd kv))) d))
  | VList l => VList (map fields_only l)
  | _ => v
  end.

Fixpoint strings_eqb (l l' : list string) : bool :=
  match l, l' with
  | [], [] => true
  | s :: r, s' :: r' => String.eqb s s' && strings_eqb r r'
  | _, _ => false
  end.

Definition class_info_eqb (c c' : class_info) : bool :=
  String.eqb (c_name c) (c_name c')
  && strings_eqb (c_fields c) (c_fields c')
  && strings_eqb (c_none_attrs c) (c_none_attrs c').

Fixpoint distinct (l : list string) : bool :=
  match l with
  | [] => true
  | s :: r => negb (existsb (String.eqb s) r) && distinct r
  end.

(** [c] is the node class the [ast] module has under the name of [c], its
    fields are distinct, and none is a key the decoder skips. *)
Definition is_grammar_class (ast_module : string -> option Unparser.attribute)
    (c : class_info) : bool :=
  match ast_module (c_name c) with
  | Some (Unparser.NodeClass c') => class_info_eqb c c'
  | _ => false
  end
  && distinct (c_fields c)
  && forallb (fun f => negb (Unparser.skipped f)) (c_fields c).

(** The trees of the grammar: nodes of such classes, holding nodes, lists
    and primitive values; a dictionary is no [ast] value, and is let in only
    without [_type]. *)
Fixpoint native (ast_module : string -> option Unparser.attribute) (v : value) : bool :=
  match v with
  | VNode c d =>
      is_grammar_class ast_module c
      && forallb (fun kv => native ast_module (snd kv)) d
  | VList l => forallb (native ast_module) l
  | VDict d => negb (has_key "_type" d)
  | _ => true
  end.

(** The entries [ast_to_dict] writes for the position attributes a node
    has, in the order of its four tests. *)
Definition position_entries (c : class_info) (d : dict) : dict :=
  flat_map (fun k => match getattr c d k with
                     | Some v => [(k, v)]
                     | None => []
                     end) position_keys.

(** A value with no discriminated record in it, looking through lists as
    [dict_to_ast] does. *)
Fixpoint undiscriminated (v : value) : bool :=
  match v with
  | VDict d => negb (has_key "_type" d)
  | VList l => forallb undiscriminated l
  | _ => true
  end.


(** An encoded tree without the entries of the four position keys, at any
    depth. *)
Fixpoint drop_positions (v : value) : value :=
  match v with
  | VDict d =>
      VDict (filter (fun kv => negb (existsb (String.eqb (fst kv)) position_keys))
               (map (fun kv => (fst kv, drop_positions (snd kv))) d))
  | VList l => VList (map drop_positions l)
  | _ => v
  end.


Definition json_source (text : string) : json :=
  JObj [("ok", JBool true); ("source", JStr text)].

(** Every discriminated record the decoder comes to in [data] names a node
    class of the [ast] module, or nothing of it: decoding [data] calls
    nothing but node classes. *)
Fixpoint names_node_classes (ast_module : string -> option Unparser.attribute)
    (data : value) : bool :=
  match data with
  | VDict d =>
      match lookup "_type" d with
      | Some (VStr name) =>
          match ast_module name with
          | Some (Unparser.NodeClass _) =>
              forallb (fun kv => names_node_classes ast_module (snd kv)) d
          | Some (Unparser.OtherObject _) => false
          | None => true
          end
      | _ => true
      end
  | VList l => forallb (names_node_classes ast_module) l
  | _ => true
  end.

(** A value made of dictionaries, lists, [None], booleans, numbers and
    strings only. *)
Fixpoint json_types_only (v : value) : bool :=
  match v with
  | VNone | VBool _ | VInt _ | VFloat _ | VStr _ => true
  | VList l => forallb json_types_only l
  | VDict d => forallb (fun kv => json_types_only (snd kv)) d
  | _ => false
  end.

(** A tree whose leaves are such values, and whose nodes hold such values
    under the position attributes, which the encoder copies without looking
    at. *)
Fixpoint plain_tree (v : value) : bool :=
  match v with
  | VNode c d =>
      forallb (fun kv =>
                 plain_tree (snd kv)
                 && (negb (existsb (String.eqb (fst kv)) position_keys)
                     || json_types_only (snd kv))) d
  | VList l => forallb plain_tree l
  | _ => json_types_only v
  end.

(** * Properties *)

(** ** Dictionaries *)

Lemma lookup_dict_set (k k' : string) (v : value) (d : dict) :
  lookup k (dict_set k' v d) = if String.eqb k k' then Some v else lookup k d.
Proof.
  induction d as [|[k0 v0] r IH]; simpl.
  - destruct (String.eqb k k'); reflexivity.
  - destruct (String.eqb_spec k' k0) as [->|Hne]; simpl.
    + destruct (String.eqb k k0); reflexivity.
    + destruct (String.eqb_spec k k0) as [->|Hne'].
      * destruct (String.eqb_spec k0 k'); [congruence | reflexivity].
      * exact IH.
Qed.

Lemma lookup_dict_set_same (k : string) (v : value) (d : dict) :
  lookup k (dict_set k v d) = Some v.
Proof. rewrite lookup_dict_set, String.eqb_refl. reflexivity. Qed.

Lemma lookup_dict_set_other (k k' : string) (v : value) (d : dict) :
  k <> k' -> lookup k (dict_set k' v d) = lookup k d.
Proof.
  intros Hne. rewrite lookup_dict_set.
  destruct (String.eqb_spec k k'); [contradiction | reflexivity].
Qed.

Lemma lookup_none_not_in (k : string) (d : dict) :
  lookup k d = None <-> ~ In k (keys d).
Proof.
  induction d as [|[k0 v0] r IH]; simpl.
  - split; [intros _ [] | reflexivity].
  - destruct (String.eqb_spec k k0) as [->|Hne].
    + split; [discriminate | intros H; exfalso; apply H; now left].
    + rewrite IH. split.
      * intros H [Heq|Hin]; [congruence | contradiction].
      * intros H Hin. apply H. now right.
Qed.

(** A new key is appended. *)
Lemma dict_set_fresh (k : string) (v : value) (d : dict) :
  ~ In k (keys d) -> dict_set k v d = d ++ [(k, v)].
Proof.
  induction d as [|[k0 v0] r IH]; simpl; intros Hnot.
  - reflexivity.
  - destruct (String.eqb_spec k k0) as [->|Hne].
    + exfalso. apply Hnot. now left.
    + rewrite IH; [reflexivity | intros Hin; apply Hnot; now right].
Qed.

Lemma keys_dict_set (k : string) (v : value) (d : dict) :
  forall k', In k' (keys (dict_set k v d)) <-> k' = k \/ In k' (keys d).
Proof.
  intros k'. induction d as [|[k0 v0] r IH]; simpl.
  - intuition.
  - destruct (String.eqb_spec k k0) as [->|Hne]; simpl.
    + intuition.
    + rewrite IH. intuition.
Qed.

Lemma existsb_eqb_In (k : string) (l : list string) :
  existsb (String.eqb k) l = true <-> In k l.
Proof.
  rewrite existsb_exists. split.
  - intros (x & Hin & Heq). apply String.eqb_eq in Heq. now subst.
  - intros Hin. exists k. split; [assumption | apply String.eqb_refl].
Qed.

(** ** The encoder, in the shape of the source *)

Lemma ast_to_dict_list_test (v : value) :
  match v with
  | VList l => VList (map ast_to_dict l)
  | _ => ast_to_dict v
  end = ast_to_dict v.
Proof. destruct v; reflexivity. Qed.

Lemma encode_field_set (result : dict) (field : string) (v : value) :
  encode_field ast_to_dict result (field, v) = dict_set field (ast_to_dict v) result.
Proof. unfold encode_field. destruct v; reflexivity. Qed.

Lemma lookup_encoded (k : string) (d : dict) :
  lookup k (map (fun kv => (fst kv, ast_to_dict (snd kv))) d)
  = option_map ast_to_dict (lookup k d).
Proof.
  induction d as [|[k0 v0] r IH]; simpl; [reflexivity|].
  destruct (String.eqb k k0); [reflexivity | exact IH].
Qed.

Lemma getattr_encoded (c : class_info) (d : dict) (k : string) :
  getattr c (map (fun kv => (fst kv, ast_to_dict (snd kv))) d) k
  = option_map ast_to_dict (getattr c d k).
Proof.
  unfold getattr. rewrite lookup_encoded.
  destruct (lookup k d); simpl; [reflexivity|].
  destruct (existsb _ _); reflexivity.
Qed.

(** The body of [ast_to_dict] on a node, as the source writes it: the
    record starts with [_type], takes the position attributes the node has,
    then one entry for each pair of [ast.iter_fields]. *)
Lemma ast_to_dict_node (c : class_info) (d : dict) :
  ast_to_dict (VNode c d)
  = VDict (fold_left (encode_field ast_to_dict) (iter_fields c d)
             (copy_positions c d [("_type", VStr (c_name c))])).
Proof.
  simpl. f_equal. unfold iter_fields.
  generalize (copy_positions c d [("_type", VStr (c_name c))]).
  induction (c_fields c) as [|f fs IH]; intros result; simpl; [reflexivity|].
  rewrite fold_left_app, getattr_encoded.
  destruct (getattr c d f) as [v|]; cbn [option_map fold_left].
  - rewrite encode_field_set. apply IH.
  - apply IH.
Qed.

Lemma ast_to_dict_list (l : list value) :
  ast_to_dict (VList l) = VList (map ast_to_dict l).
Proof. reflexivity. Qed.

Lemma ast_to_dict_primitive (v : value) :
  is_primitive v = true -> ast_to_dict v = v.
Proof. destruct v; simpl; intros H; try reflexivity; discriminate. Qed.

(** ** What the encoder writes under each key *)

Lemma lookup_app (k : string) (d1 d2 : dict) :
  lookup k (d1 ++ d2)
  = match lookup k d1 with Some v => Some v | None => lookup k d2 end.
Proof.
  induction d1 as [|[k0 v0] r IH]; simpl; [reflexivity|].
  destruct (String.eqb k k0); [reflexivity | exact IH].
Qed.

Lemma lookup_in (k : string) (v : value) (d : dict) :
  lookup k d = Some v -> In (k, v) d.
Proof.
  induction d as [|[k0 v0] r IH]; simpl; [discriminate|].
  destruct (String.eqb_spec k k0) as [->|Hne].
  - intros [= ->]. now left.
  - intros H. right. now apply IH.
Qed.

(** Where every binding of [k] holds the same value, that is the value
    found. *)
Lemma lookup_unique_value (k : string) (v : value) (d : dict) :
  In (k, v) d -> (forall v', In (k, v') d -> v' = v) -> lookup k d = Some v.
Proof.
  intros Hin Hsame.
  destruct (lookup k d) as [v'|] eqn:Hl.
  - apply lookup_in in Hl. now rewrite (Hsame _ Hl).
  - apply lookup_none_not_in in Hl. exfalso. apply Hl.
    unfold keys. change k with (fst (k, v)). now apply in_map.
Qed.

Lemma in_iter_fields (c : class_info) (d : dict) (f : string) (v : value) :
  In (f, v) (iter_fields c d) <-> In f (c_fields c) /\ getattr c d f = Some v.
Proof.
  unfold iter_fields. rewrite in_flat_map. split.
  - intros (f' & Hin & Hv). destruct (getattr c d f') as [v'|] eqn:Hg.
    + destruct Hv as [[= <- <-]|[]]. now split.
    + destruct Hv.
  - intros [Hin Hg]. exists f. split; [assumption|]. rewrite Hg. now left.
Qed.

Lemma lookup_fold_encode (k : string) (l : list (string * value)) (result : dict) :
  lookup k (fold_left (encode_field ast_to_dict) l result)
  = match lookup k (rev l) with
    | Some v => Some (ast_to_dict v)
    | None => lookup k result
    end.
Proof.
  revert result. induction l as [|[f v] l IH]; intros result; cbn [fold_left rev].
  - reflexivity.
  - rewrite IH, lookup_app, encode_field_set, lookup_dict_set. cbn [lookup].
    destruct (lookup k (rev l)); [reflexivity|].
    destruct (String.eqb k f); reflexivity.
Qed.

Lemma lookup_rev_iter_fields (c : class_info) (d : dict) (k : string) :
  lookup k (rev (iter_fields c d))
  = if existsb (String.eqb k) (c_fields c) then getattr c d k else None.
Proof.
  destruct (existsb (String.eqb k) (c_fields c)) eqn:Hf.
  - apply existsb_eqb_In in Hf. destruct (getattr c d k) as [v|] eqn:Hg.
    + apply lookup_unique_value.
      * rewrite <- in_rev. apply in_iter_fields. now split.
      * intros v' Hin. rewrite <- in_rev in Hin.
        apply in_iter_fields in Hin. destruct Hin as [_ Hin]. congruence.
    + apply lookup_none_not_in. intros Hin. unfold keys in Hin.
      apply in_map_iff in Hin. destruct Hin as ([f v] & Heq & Hin).
      simpl in Heq. subst f. rewrite <- in_rev in Hin.
      apply in_iter_fields in Hin. destruct Hin as [_ Hin]. congruence.
  - apply lookup_none_not_in. intros Hin. unfold keys in Hin.
    apply in_map_iff in Hin. destruct Hin as ([f v] & Heq & Hin).
    simpl in Heq. subst f. rewrite <- in_rev in Hin.
    apply in_iter_fields in Hin. destruct Hin as [Hin _].
    apply existsb_eqb_In in Hin. congruence.
Qed.

Lemma lookup_copy_position (c : class_info) (d : dict) (k p : string) (result : dict) :
  lookup k (copy_position c d p result)
  = if String.eqb k p
    then match getattr c d p with Some v => Some v | None => lookup k result end
    else lookup k result.
Proof.
  unfold copy_position. destruct (getattr c d p).
  - apply lookup_dict_set.
  - destruct (String.eqb k p); reflexivity.
Qed.

Lemma lookup_copy_positions (c : class_info) (d : dict) (k : string) (result : dict) :
  lookup k (copy_positions c d result)
  = if existsb (String.eqb k) position_keys
    then match getattr c d k with Some v => Some v | None => lookup k result end
    else lookup k result.
Proof.
  unfold copy_positions, position_keys. cbn [fold_left existsb].
  rewrite !lookup_copy_position.
  repeat match goal with
         | |- context [String.eqb k ?p] =>
             destruct (String.eqb_spec k p) as [->|?]; cbn [orb]
         end; try reflexivity;
    repeat match goal with
           | |- context [getattr c d ?p] => destruct (getattr c d p)
           end; reflexivity.
Qed.

(** The entry of an encoded node under any key. *)
Lemma record_get_ast_to_dict (c : class_info) (d : dict) (k : string) :
  record_get k (ast_to_dict (VNode c d))
  = match (if existsb (String.eqb k) (c_fields c) then getattr c d k else None) with
    | Some v => Some (ast_to_dict v)
    | None =>
        if existsb (String.eqb k) position_keys
        then match getattr c d k with
             | Some v => Some v
             | None => None
             end
        else if String.eqb k "_type" then Some (VStr (c_name c)) else None
    end.
Proof.
  rewrite ast_to_dict_node. cbn [record_get].
  rewrite lookup_fold_encode, lookup_rev_iter_fields, lookup_copy_positions.
  destruct (if existsb (String.eqb k) (c_fields c) then getattr c d k else None);
    [reflexivity|].
  cbn [lookup].
  destruct (existsb (String.eqb k) position_keys) eqn:Hp.
  - destruct (getattr c d k); [reflexivity|].
    apply existsb_eqb_In in Hp. simpl in Hp.
    destruct Hp as [<-|[<-|[<-|[<-|[]]]]]; reflexivity.
  - reflexivity.
Qed.

(** ** The encoder: positions and structural fields *)

(** C7, as the code has it.  Each of the four position keys is in the
    record of a node exactly when the node has the attribute, and then with
    the value the attribute holds, untouched: an integer, or any other
    primitive value, [None] among them; a node without the attribute gets no
    entry at all, neither a null nor a zero. *)
Theorem position_metadata_copied_verbatim_or_omitted
    (c : class_info) (d : dict) (k : string) :
  In k position_keys ->
  (record_get k (ast_to_dict (VNode c d)) = None <-> hasattr c d k = false) /\
  (forall v, getattr c d k = Some v -> is_primitive v = true ->
             record_get k (ast_to_dict (VNode c d)) = Some v).
Proof.
  intros Hk. apply existsb_eqb_In in Hk.
  rewrite record_get_ast_to_dict, Hk. unfold hasattr. split.
  - destruct (existsb (String.eqb k) (c_fields c));
      destruct (getattr c d k); split; intros H; try reflexivity; discriminate.
  - intros v Hg Hv. rewrite Hg.
    destruct (existsb (String.eqb k) (c_fields c)); [|reflexivity].
    now rewrite ast_to_dict_primitive.
Qed.

Lemma position_metadata_copied_verbatim_or_omitted_witness :
  In "lineno" position_keys /\
  record_get "lineno"
    (ast_to_dict (VNode Sample.Name [("id", VStr "x"); ("lineno", VInt 3)]))
  = Some (VInt 3).
Proof.
  split.
  - simpl. now left.
  - apply (position_metadata_copied_verbatim_or_omitted
             Sample.Name [("id", VStr "x"); ("lineno", VInt 3)] "lineno").
    + simpl. now left.
    + reflexivity.
    + reflexivity.
Defined.

(** C7, as stated, fails on a node built by hand with no position given:
    it has no [lineno], but it still has [end_lineno] and [end_col_offset],
    which its class holds as [None]; the record has the two, as null, where
    the claim has a position field carry an integer or be left out. *)
Lemma hand_built_name_has_null_end_lineno :
  hasattr Sample.Name [("id", VStr "x")] "lineno" = false /\
  hasattr Sample.Name [("id", VStr "x")] "end_lineno" = true /\
  ast_to_dict (VNode Sample.Name [("id", VStr "x")])
  = VDict [("_type", VStr "Name"); ("end_lineno", VNone);
           ("end_col_offset", VNone); ("id", VStr "x")].
Proof. repeat split. Qed.

(** C8.  The record of a node whose class has no field called [_type] (no
    class of the grammar has one) carries the name of the class under
    [_type]; each pair of [ast.iter_fields] has its entry, a list encoded
    item by item and anything else by the encoder itself; a list is encoded
    to the list of the encodings of its items, in their order; a node is
    encoded to a record; any other value is returned as it is. *)
Theorem structural_fields_encoded (c : class_info) (d : dict) :
  ~ In "_type" (c_fields c) ->
  record_get "_type" (ast_to_dict (VNode c d)) = Some (VStr (c_name c)) /\
  (forall f v, In (f, v) (iter_fields c d) ->
     record_get f (ast_to_dict (VNode c d))
     = Some (match v with
             | VList l => VList (map ast_to_dict l)
             | _ => ast_to_dict v
             end)) /\
  (forall l, ast_to_dict (VList l) = VList (map ast_to_dict l)) /\
  (forall c' d', exists record, ast_to_dict (VNode c' d') = VDict record) /\
  (forall v, is_primitive v = true -> ast_to_dict v = v).
Proof.
  intros Htype. repeat split.
  - rewrite record_get_ast_to_dict.
    destruct (existsb (String.eqb "_type") (c_fields c)) eqn:Hf.
    + apply existsb_eqb_In in Hf. contradiction.
    + reflexivity.
  - intros f v Hin. apply in_iter_fields in Hin. destruct Hin as [Hf Hg].
    apply existsb_eqb_In in Hf.
    rewrite record_get_ast_to_dict, Hf, Hg, ast_to_dict_list_test. reflexivity.
  - intros c' d'. rewrite ast_to_dict_node. eexists. reflexivity.
  - apply ast_to_dict_primitive.
Qed.

Lemma structural_fields_encoded_witness :
  ~ In "_type" (c_fields Sample.Name) /\
  record_get "_type" (ast_to_dict (VNode Sample.Name [("id", VStr "x")]))
  = Some (VStr "Name").
Proof.
  assert (H : ~ In "_type" (c_fields Sample.Name)).
  { simpl. intros [H|[H|[]]]; discriminate. }
  split.
  - exact H.
  - exact (proj1 (structural_fields_encoded Sample.Name [("id", VStr "x")] H)).
Defined.

(** ** The decoder: the document that is not a discriminated record *)

Lemma has_key_loaded (k : string) (l acc : dict) :
  has_key k (fold_left (fun d kv => dict_set (fst kv) (snd kv) d) l acc)
  = has_key k acc || existsb (fun kv => String.eqb k (fst kv)) l.
Proof.
  revert acc. induction l as [|[k0 v0] l IH]; intros acc; cbn [fold_left existsb].
  - now rewrite orb_false_r.
  - rewrite IH. unfold has_key. rewrite lookup_dict_set. cbn [fst snd].
    destruct (String.eqb k k0); destruct (lookup k acc); reflexivity.
Qed.

Lemma is_discriminated_loads (j : json) :
  Unparser.is_discriminated (json_loads j) = json_is_discriminated j.
Proof.
  destruct j; try reflexivity.
  cbn [json_loads Unparser.is_discriminated json_is_discriminated].
  rewrite has_key_loaded. cbn [has_key lookup orb].
  induction members as [|[k v] ms IH]; [reflexivity|].
  cbn [map existsb fst snd]. now rewrite IH.
Qed.

(** Where [json.loads] returns the document and the stack suffices, the
    run is [Unparser.main] on the document. *)
Lemma run_on_loaded_document
    (ast_module : string -> option Unparser.attribute)
    (ast_unparse : value -> result string) (document : json) :
  UnparserRun.main ast_module ast_unparse (fun _ => None) (Ok (json_loads document))
  = Unparser.main ast_module ast_unparse document.
Proof. reflexivity. Qed.

(** C3, as the code has it.  Whenever [json.loads] returns a value that is
    not a dictionary with [_type], the run prints the one line [{ok: false,
    error: {type: ValueError, msg: Invalid AST format}}] and ends; neither
    the [ast] module nor the depth of the value has a say.  (A standard
    input on which [json.loads] raises is not answered at all.) *)
Theorem loaded_document_without_type_rejected
    (ast_module : string -> option Unparser.attribute)
    (ast_unparse : value -> result string)
    (exhausts : value -> option string) (data : value) :
  Unparser.is_discriminated data = false ->
  UnparserRun.main ast_module ast_unparse exhausts (Ok data)
  = mkProcess [json_failure "ValueError" "Invalid AST format"] None.
Proof.
  intros H. unfold UnparserRun.main. rewrite H. reflexivity.
Qed.

Lemma loaded_document_without_type_rejected_witness :
  let run := UnparserRun.main Sample.ast_module Sample.ast_unparse (fun _ => None) in
  let rejected := mkProcess [json_failure "ValueError" "Invalid AST format"] None in
  (SampleJson.loads (JObj []) = Ok (VDict []) /\
   Unparser.is_discriminated (VDict []) = false) /\
  run (SampleJson.loads (JObj [])) = rejected /\
  run (SampleJson.loads (JArr [])) = rejected /\
  run (SampleJson.loads (JStr "not a document")) = rejected.
Proof.
  intros run rejected. split; [split; reflexivity | split; [|split]].
  - exact (loaded_document_without_type_rejected
             Sample.ast_module Sample.ast_unparse (fun _ => None) (VDict []) eq_refl).
  - exact (loaded_document_without_type_rejected
             Sample.ast_module Sample.ast_unparse (fun _ => None) (VList []) eq_refl).
  - exact (loaded_document_without_type_rejected
             Sample.ast_module Sample.ast_unparse (fun _ => None)
             (VStr "not a document") eq_refl).
Defined.

(** C3, as stated, fails on the document that is one integer of 4301
    digits: it is a JSON value and no record, [json.loads] raises
    [ValueError] on it, outside any [try], and the run ends on that
    exception with nothing printed. *)
Lemma oversized_integer_document_not_answered :
  let document := JInt (10 ^ 4300) in
  json_is_discriminated document = false /\
  exists e,
    SampleJson.loads document = Raise e /\
    e_type e = "ValueError" /\
    UnparserRun.main Sample.ast_module Sample.ast_unparse (fun _ => None)
      (SampleJson.loads document)
    = mkProcess [] (Some e).
Proof.
  intros document. split; [reflexivity|].
  exists (SampleJson.too_many_digits (10 ^ 4300)).
  assert (H : SampleJson.loads document
              = Raise (SampleJson.too_many_digits (10 ^ 4300))).
  { assert (Hlimit : SampleJson.exceeds_limit (10 ^ 4300) = true).
    { unfold SampleJson.exceeds_limit, SampleJson.max_str_digits.
      rewrite Z.abs_eq by (apply Z.pow_nonneg; lia). apply Z.leb_refl. }
    unfold document. cbn [SampleJson.loads]. rewrite Hlimit. reflexivity. }
  rewrite H. split; [reflexivity | split; reflexivity].
Qed.

(** ** The decoder: what reaches the constructor *)

Section Decoder.

Variable ast_module : string -> option Unparser.attribute.

Local Abbreviation dict_to_ast := (Unparser.dict_to_ast ast_module).

(** The test [isinstance(value, list)] of the loop changes nothing: the
    decoder does the same on a list. *)
Lemma dict_to_ast_list_test (A : Type) (x : value) (k : value -> result A) :
  match x with
  | VList l => v <- comprehension dict_to_ast l ;; k (VList v)
  | _ => v <- dict_to_ast x ;; k v
  end = (v <- dict_to_ast x ;; k v).
Proof.
  destruct x; try reflexivity.
  cbn [Unparser.dict_to_ast bind].
  destruct (comprehension (Unparser.dict_to_ast ast_module) items); reflexivity.
Qed.

Lemma prepare_fields_cons (key : string) (x : value) (rest fields : dict) :
  Unparser.prepare_fields dict_to_ast ((key, x) :: rest) fields
  = if Unparser.skipped key then Unparser.prepare_fields dict_to_ast rest fields
    else v <- dict_to_ast x ;;
         Unparser.prepare_fields dict_to_ast rest (dict_set key v fields).
Proof.
  cbn [Unparser.prepare_fields]. destruct (Unparser.skipped key); [reflexivity|].
  apply dict_to_ast_list_test.
Qed.

(** The loop, on a record whose keys are distinct and not among those of
    the dictionary built so far: the entries it does not skip are decoded
    in order and appended. *)
Lemma prepare_fields_spec (d fields : dict) :
  NoDup (keys d) ->
  (forall k, In k (keys d) -> ~ In k (keys fields)) ->
  Unparser.prepare_fields dict_to_ast d fields
  = (vs <- comprehension (decode_entry dict_to_ast) (construction_inputs d) ;;
     Ok (fields ++ vs)).
Proof.
  revert fields. induction d as [|[key x] rest IH]; intros fields Hnd Hfresh.
  - cbn. now rewrite app_nil_r.
  - rewrite prepare_fields_cons. unfold construction_inputs.
    cbn [filter fst]. inversion Hnd as [|? ? Hnotin Hnd']; subst.
    destruct (Unparser.skipped key); cbn [negb].
    + apply IH; [assumption|]. intros k Hk. apply Hfresh. now right.
    + cbn [comprehension]. unfold decode_entry at 1. cbn [fst snd].
      destruct (dict_to_ast x) as [v|e]; cbn [bind]; [|reflexivity].
      rewrite IH.
      * fold (construction_inputs rest).
        destruct (comprehension (decode_entry dict_to_ast) (construction_inputs rest));
          cbn [bind]; [|reflexivity].
        rewrite dict_set_fresh, <- app_assoc; [reflexivity|].
        apply Hfresh. now left.
      * assumption.
      * intros k Hk Hin. apply keys_dict_set in Hin. destruct Hin as [->|Hin].
        -- contradiction.
        -- apply (Hfresh k); [now right | assumption].
Qed.

Lemma dict_to_ast_record (d : dict) (name : string) (node_class : Unparser.attribute) :
  lookup "_type" d = Some (VStr name) ->
  ast_module name = Some node_class ->
  dict_to_ast (VDict d)
  = (fields <- Unparser.prepare_fields dict_to_ast d [] ;;
     Unparser.construct node_class fields).
Proof.
  intros Ht Hc. cbn [Unparser.dict_to_ast].
  rewrite Ht, Hc. reflexivity.
Qed.

End Decoder.

Lemma in_construction_inputs (d : dict) (k : string) (v : value) :
  In (k, v) (construction_inputs d)
  <-> In (k, v) d /\ String.prefix "_" k = false /\ ~ In k position_keys.
Proof.
  unfold construction_inputs. rewrite filter_In. cbn [fst].
  unfold Unparser.skipped. rewrite negb_true_iff, orb_false_iff.
  rewrite <- not_true_iff_false with (b := existsb _ _), existsb_eqb_In.
  tauto.
Qed.

Section DecoderClaims.

Variable ast_module : string -> option Unparser.attribute.

Local Abbreviation dict_to_ast := (Unparser.dict_to_ast ast_module).

(** C9, as the code has it.  A record with distinct keys whose [_type]
    names something of the [ast] module is decoded by calling that with
    the entries the loop does not skip, each decoded, in the order of the
    record; the loop skips the four position keys and every key that
    starts with an underscore, [_type] among them, and nothing else. *)
Theorem metadata_excluded_from_construction
    (d : dict) (name : string) (node_class : Unparser.attribute) :
  NoDup (keys d) ->
  lookup "_type" d = Some (VStr name) ->
  ast_module name = Some node_class ->
  dict_to_ast (VDict d)
  = (fields <- comprehension (decode_entry dict_to_ast) (construction_inputs d) ;;
     Unparser.construct node_class fields) /\
  (forall k, In k ("_type" :: position_keys) ->
             ~ In k (keys (construction_inputs d))) /\
  (forall k v, In (k, v) (construction_inputs d)
               <-> In (k, v) d /\ String.prefix "_" k = false /\ ~ In k position_keys).
Proof.
  intros Hnd Ht Hc. split; [|split].
  - rewrite (dict_to_ast_record ast_module d name node_class Ht Hc).
    rewrite prepare_fields_spec; [|assumption|intros k _ []].
    destruct (comprehension _ _); reflexivity.
  - intros k Hk Hin. unfold keys in Hin. apply in_map_iff in Hin.
    destruct Hin as ([k' v] & Heq & Hin). cbn [fst] in Heq. subst k'.
    apply in_construction_inputs in Hin. destruct Hin as (_ & Hpre & Hpos).
    destruct Hk as [<-|Hk]; [discriminate | contradiction].
  - apply in_construction_inputs.
Qed.

(** C10.  A record with no [_type] is returned by the decoder as it is,
    and so reaches the constructor of the node it is a field of, or stays
    the item of the list it is in, as a plain dictionary; only [main]
    asks for [_type], of the document itself. *)
Theorem undiscriminated_nested_record_passes_through (d : dict) :
  has_key "_type" d = false ->
  dict_to_ast (VDict d) = Ok (VDict d) /\
  (forall key rest fields,
     Unparser.skipped key = false ->
     Unparser.prepare_fields dict_to_ast ((key, VDict d) :: rest) fields
     = Unparser.prepare_fields dict_to_ast rest (dict_set key (VDict d) fields)) /\
  (forall l,
     comprehension dict_to_ast (VDict d :: l)
     = (items <- comprehension dict_to_ast l ;; Ok (VDict d :: items))).
Proof.
  intros H.
  assert (Hd : dict_to_ast (VDict d) = Ok (VDict d)).
  { cbn [Unparser.dict_to_ast]. unfold has_key in H.
    destruct (lookup "_type" d); [discriminate | reflexivity]. }
  split; [exact Hd | split].
  - intros key rest fields Hkey.
    rewrite prepare_fields_cons, Hkey, Hd. reflexivity.
  - intros l. cbn [comprehension]. rewrite Hd. reflexivity.
Qed.

End DecoderClaims.

Lemma metadata_excluded_from_construction_witness :
  let d := [("_type", VStr "Name"); ("lineno", VInt 1); ("id", VStr "a")] in
  (NoDup (keys d) /\ lookup "_type" d = Some (VStr "Name") /\
   Sample.ast_module "Name" = Some (Unparser.NodeClass Sample.Name)) /\
  Unparser.dict_to_ast Sample.ast_module (VDict d)
  = (fields <- comprehension (decode_entry (Unparser.dict_to_ast Sample.ast_module))
                 (construction_inputs d) ;;
     Unparser.construct (Unparser.NodeClass Sample.Name) fields).
Proof.
  intros d.
  assert (Hnd : NoDup (keys d)).
  { unfold d, keys. cbn [map fst]. repeat constructor; simpl.
    - intros [H|[H|[]]]; discriminate.
    - intros [H|[]]; discriminate.
    - intros []. }
  split.
  - split; [exact Hnd | split; reflexivity].
  - exact (proj1 (metadata_excluded_from_construction
                    Sample.ast_module d "Name" (Unparser.NodeClass Sample.Name)
                    Hnd eq_refl eq_refl)).
Defined.

Lemma undiscriminated_nested_record_passes_through_witness :
  has_key "_type" [("a", VInt 1)] = false /\
  Unparser.dict_to_ast Sample.ast_module (VDict [("a", VInt 1)])
  = Ok (VDict [("a", VInt 1)]).
Proof.
  split.
  - reflexivity.
  - exact (proj1 (undiscriminated_nested_record_passes_through
                    Sample.ast_module [("a", VInt 1)] eq_refl)).
Defined.

(** A document whose root is discriminated and holds a record that is not:
    the record goes to the constructor of [Module] as it is, and the module
    is printed. *)
Lemma plain_record_inside_module_accepted :
  let meta := JObj [("a", JInt 1)] in
  let document := JObj [("_type", JStr "Module"); ("body", JArr []);
                        ("type_ignores", JArr []); ("meta", meta)] in
  Unparser.dict_to_ast Sample.ast_module (json_loads document)
  = Ok (VNode Sample.Module_
          [("body", VList []); ("type_ignores", VList []);
           ("meta", VDict [("a", VInt 1)])]) /\
  Unparser.main Sample.ast_module Sample.ast_unparse document
  = mkProcess [JObj [("ok", JBool true); ("source", JStr EmptyString)]] None /\
  Unparser.main Sample.ast_module Sample.ast_unparse meta
  = mkProcess [json_failure "ValueError" "Invalid AST format"] None.
Proof. repeat split. Qed.

(** C5, as the code has it.  On a loaded document that names node classes
    only, whatever exception of the class [Exception] rebuilding the tree or
    printing it raises (the [RecursionError] of the interpreter among them),
    the run prints one envelope, which says [ValueError], and whose message
    is the text of that exception after the words [Failed to unparse AST: ];
    the name of its class is not reported. *)
Theorem decoder_failure_reported_as_ValueError
    (ast_module : string -> option Unparser.attribute)
    (ast_unparse : value -> result string)
    (exhausts : value -> option string) (data : value) (e : exn) :
  Unparser.is_discriminated data = true ->
  names_node_classes ast_module data = true ->
  (tree <- UnparserRun.dict_to_ast ast_module exhausts data ;; ast_unparse tree)
  = Raise e ->
  is_Exception e = true ->
  UnparserRun.main ast_module ast_unparse exhausts (Ok data)
  = mkProcess [json_failure "ValueError" ("Failed to unparse AST: " ++ e_str e)] None.
Proof.
  intros Hd _ Hraise He. unfold UnparserRun.main. rewrite Hd. cbn [negb].
  unfold UnparserRun.unparse_ast. rewrite Hraise, He. reflexivity.
Qed.

Lemma decoder_failure_reported_as_ValueError_witness :
  let document := JObj [("_type", JStr "Module");
                        ("body", JArr [JObj [("_type", JStr "Expr")]]);
                        ("type_ignores", JArr [])] in
  let data := VDict [("_type", VStr "Module");
                     ("body", VList [VDict [("_type", VStr "Expr")]]);
                     ("type_ignores", VList [])] in
  let e := Sample.AttributeError "'Expr' object has no attribute 'value'" in
  (SampleJson.loads document = Ok data /\
   Unparser.is_discriminated data = true /\
   names_node_classes Sample.ast_module data = true /\
   (tree <- UnparserRun.dict_to_ast Sample.ast_module (fun _ => None) data ;;
    Sample.ast_unparse tree) = Raise e /\
   is_Exception e = true) /\
  UnparserRun.main Sample.ast_module Sample.ast_unparse (fun _ => None)
    (SampleJson.loads document)
  = mkProcess
      [json_failure "ValueError"
         "Failed to unparse AST: 'Expr' object has no attribute 'value'"] None.
Proof.
  intros document data e. split.
  - repeat split.
  - exact (decoder_failure_reported_as_ValueError
             Sample.ast_module Sample.ast_unparse (fun _ => None) data e
             eq_refl eq_refl eq_refl eq_refl).
Defined.

(** C9, as stated, fails on a key that starts with an underscore: [_x] is a
    field of the record, neither [_type] nor a position key, and the
    constructor is not given it. *)
Lemma underscore_field_withheld_from_constructor :
  let d := [("_type", VStr "Name"); ("_x", VInt 1); ("id", VStr "a")] in
  (In ("_x", VInt 1) d /\ "_x" <> "_type" /\ ~ In "_x" position_keys) /\
  Unparser.prepare_fields (Unparser.dict_to_ast Sample.ast_module) d []
  = Ok [("id", VStr "a")] /\
  Unparser.dict_to_ast Sample.ast_module (VDict d)
  = Ok (VNode Sample.Name [("id", VStr "a")]).
Proof.
  intros d. split; [split; [|split] | split; reflexivity].
  - right. now left.
  - discriminate.
  - simpl. intros [H|[H|[H|[H|[]]]]]; discriminate.
Qed.

(** C5, as stated, fails: the call of [ast.PyCF_ONLY_AST], an integer,
    raises [TypeError]; the envelope says [ValueError], and its message is
    not the text of the exception. *)
Lemma construction_TypeError_reported_as_ValueError :
  let document := JObj [("_type", JStr "PyCF_ONLY_AST")] in
  exists e,
    Unparser.dict_to_ast Sample.ast_module (json_loads document) = Raise e /\
    e_type e = "TypeError" /\
    Unparser.main Sample.ast_module Sample.ast_unparse document
    = mkProcess
        [json_failure "ValueError"
           "Failed to unparse AST: 'int' object is not callable"] None /\
    "ValueError" <> e_type e /\
    "Failed to unparse AST: 'int' object is not callable" <> e_str e.
Proof.
  intros document. exists (TypeError "'int' object is not callable").
  repeat split; discriminate.
Qed.

(** C4 at [{_type: parse, source: x}].  [parse] is no production of the
    grammar, but it is a name of the [ast] module: the decoder calls the
    function and answers with a success envelope. *)
Theorem module_function_taken_for_node_class :
  Sample.ast_module "parse" <> None /\
  (forall c, Sample.ast_module "parse" <> Some (Unparser.NodeClass c)) /\
  Unparser.main Sample.ast_module Sample.ast_unparse
    (JObj [("_type", JStr "parse"); ("source", JStr "x")])
  = mkProcess [JObj [("ok", JBool true); ("source", JStr "x")]] None.
Proof.
  split; [discriminate | split; [intros c; discriminate | reflexivity]].
Qed.

(** ** The encoder: its envelopes and its one line of output *)

Section EncoderClaims.

Variable ast_parse : string -> result value.

(** C6.  When [ast.parse] raises a [SyntaxError], the envelope is a
    failure of type [SyntaxError] whose [lineno], [offset] and [text] are
    the attributes of the exception as they are, and whose [msg] is its
    message. *)
Theorem syntax_error_envelope (source : string) (e : exn) (info : syntax_error) :
  ast_parse source = Raise e ->
  e_class e = IsSyntaxError info ->
  Parser.parse_source ast_parse source
  = Ok (failure [("type", VStr "SyntaxError");
                 ("msg", VStr (Parser.str_msg info));
                 ("lineno", se_lineno info);
                 ("offset", se_offset info);
                 ("text", se_text info)]) /\
  (forall m, se_msg info = Some m -> Parser.str_msg info = m).
Proof.
  intros Hraise Hclass. split.
  - unfold Parser.parse_source. rewrite Hraise. cbn [bind].
    rewrite Hclass. reflexivity.
  - intros m Hm. unfold Parser.str_msg. now rewrite Hm.
Qed.

(** [parse_source] returns an envelope whenever [ast.parse] returns or
    raises an exception of the class [Exception]. *)
Lemma parse_source_returns (source : string) :
  (forall e, ast_parse source = Raise e -> is_Exception e = true) ->
  exists envelope, Parser.parse_source ast_parse source = Ok envelope.
Proof.
  intros Hexc. unfold Parser.parse_source.
  destruct (ast_parse source) as [tree|e] eqn:Hp; cbn [bind].
  - eexists. reflexivity.
  - specialize (Hexc e eq_refl). unfold is_Exception in Hexc.
    destruct (e_class e); [eexists; reflexivity | eexists; reflexivity | discriminate].
Qed.

(** Where the encoded tree holds a value [json.dumps] refuses, the run
    ends on that exception, nothing printed. *)
Lemma main_raises_where_tree_is_not_json (source : string) (tree : value) (e : exn) :
  ast_parse source = Ok tree ->
  json_dumps (ast_to_dict tree) = Raise e ->
  Parser.main ast_parse source = mkProcess [] (Some e).
Proof.
  intros Hparse Hdumps. unfold Parser.main, Parser.parse_source, print_json.
  rewrite Hparse. cbn [bind json_dumps comprehension fst snd].
  rewrite Hdumps. reflexivity.
Qed.

(** Otherwise one line is printed, and the run ends normally. *)
Lemma main_prints_one_line (source : string) (envelope : value) (line : json) :
  Parser.parse_source ast_parse source = Ok envelope ->
  json_dumps envelope = Ok line ->
  Parser.main ast_parse source = mkProcess [line] None.
Proof.
  intros Hsource Hdumps. unfold Parser.main, print_json.
  now rewrite Hsource, Hdumps.
Qed.

End EncoderClaims.

Lemma syntax_error_envelope_witness :
  let info := mkSyntaxError (Some "invalid syntax") (VInt 1) (VInt 7)
                (VStr ("def f(:" ++ Sample.newline)) in
  let e := Sample.SyntaxError info "invalid syntax (<unknown>, line 1)" in
  (Sample.ast_parse "def f(:" = Raise e /\ e_class e = IsSyntaxError info) /\
  Parser.parse_source Sample.ast_parse "def f(:"
  = Ok (failure [("type", VStr "SyntaxError");
                 ("msg", VStr "invalid syntax");
                 ("lineno", VInt 1);
                 ("offset", VInt 7);
                 ("text", VStr ("def f(:" ++ Sample.newline))]).
Proof.
  intros info e. split.
  - split; reflexivity.
  - exact (proj1 (syntax_error_envelope Sample.ast_parse "def f(:" e info
                    eq_refl eq_refl)).
Defined.

(** C2 at the source text [...].  [ast.parse] returns a tree whose constant
    is [Ellipsis]; [parse_source] returns the success envelope around it;
    [json.dumps], called by [main] outside any [try], raises [TypeError]: the
    run ends on the exception with nothing on standard output. *)
Theorem ellipsis_literal_ends_run_without_output :
  (exists tree, Sample.ast_parse "..." = Ok tree /\
     Parser.parse_source Sample.ast_parse "..."
     = Ok (VDict [("ok", VBool true); ("ast", ast_to_dict tree)])) /\
  Parser.main Sample.ast_parse "..."
  = mkProcess [] (Some (TypeError "Object of type ellipsis is not JSON serializable")).
Proof.
  split.
  - eexists. split; reflexivity.
  - reflexivity.
Qed.

(** ** Decoding what the encoder wrote *)

Lemma strings_eqb_eq (l l' : list string) : strings_eqb l l' = true -> l = l'.
Proof.
  revert l'. induction l as [|s r IH]; intros [|s' r']; simpl; try discriminate.
  - reflexivity.
  - intros H. apply andb_true_iff in H. destruct H as [Hs Hr].
    apply String.eqb_eq in Hs. now rewrite Hs, (IH r' Hr).
Qed.

Lemma class_info_eqb_eq (c c' : class_info) : class_info_eqb c c' = true -> c = c'.
Proof.
  destruct c as [n f a], c' as [n' f' a']. unfold class_info_eqb. simpl.
  intros H. apply andb_true_iff in H. destruct H as [H Ha].
  apply andb_true_iff in H. destruct H as [Hn Hf].
  apply String.eqb_eq in Hn. apply strings_eqb_eq in Hf. apply strings_eqb_eq in Ha.
  now subst.
Qed.

Lemma distinct_NoDup (l : list string) : distinct l = true -> NoDup l.
Proof.
  induction l as [|s r IH]; simpl; intros H; constructor.
  - apply andb_true_iff in H. destruct H as [H _].
    apply negb_true_iff in H. intros Hin. apply existsb_eqb_In in Hin. congruence.
  - apply andb_true_iff in H. now apply IH.
Qed.

Lemma is_grammar_class_spec (ast_module : string -> option Unparser.attribute)
    (c : class_info) :
  is_grammar_class ast_module c = true ->
  ast_module (c_name c) = Some (Unparser.NodeClass c) /\
  NoDup (c_fields c) /\
  (forall f, In f (c_fields c) -> Unparser.skipped f = false).
Proof.
  unfold is_grammar_class. intros H.
  apply andb_true_iff in H. destruct H as [H Hskip].
  apply andb_true_iff in H. destruct H as [Hc Hd].
  split; [|split].
  - destruct (ast_module (c_name c)) as [[c'|call]|]; try discriminate.
    apply class_info_eqb_eq in Hc. now subst.
  - now apply distinct_NoDup.
  - intros f Hin. rewrite forallb_forall in Hskip.
    apply negb_true_iff. now apply Hskip.
Qed.

Lemma keys_iter_fields (c : class_info) (d : dict) :
  keys (iter_fields c d) = filter (hasattr c d) (c_fields c).
Proof.
  unfold iter_fields, keys, hasattr.
  induction (c_fields c) as [|f fs IH]; cbn [flat_map filter]; [reflexivity|].
  rewrite map_app, IH. destruct (getattr c d f); reflexivity.
Qed.

Lemma fold_encode_fresh (l : list (string * value)) (result : dict) :
  NoDup (keys l) ->
  (forall k, In k (keys l) -> ~ In k (keys result)) ->
  fold_left (encode_field ast_to_dict) l result
  = result ++ map (fun fv => (fst fv, ast_to_dict (snd fv))) l.
Proof.
  revert result. induction l as [|[f v] l IH]; intros result Hnd Hfresh;
    cbn [fold_left map fst snd].
  - now rewrite app_nil_r.
  - inversion Hnd as [|? ? Hnotin Hnd']; subst.
    rewrite encode_field_set, IH.
    + rewrite dict_set_fresh, <- app_assoc; [reflexivity|].
      apply Hfresh. now left.
    + assumption.
    + intros k Hk Hin. apply keys_dict_set in Hin. destruct Hin as [->|Hin].
      * contradiction.
      * apply (Hfresh k); [now right | assumption].
Qed.

Lemma keys_copy_positions (c : class_info) (d result : dict) (k : string) :
  In k (keys (copy_positions c d result)) -> In k position_keys \/ In k (keys result).
Proof.
  intros Hin. destruct (lookup k (copy_positions c d result)) as [v|] eqn:Hl.
  - rewrite lookup_copy_positions in Hl.
    destruct (existsb (String.eqb k) position_keys) eqn:Hp.
    + left. now apply existsb_eqb_In.
    + right. destruct (lookup k result) eqn:Hr; [|discriminate].
      destruct (in_dec string_dec k (keys result)) as [Hk|Hk]; [assumption|].
      apply lookup_none_not_in in Hk. congruence.
  - apply lookup_none_not_in in Hl. contradiction.
Qed.

Lemma position_keys_skipped (k : string) :
  In k ("_type" :: position_keys) -> Unparser.skipped k = true.
Proof.
  simpl. intros [<-|[<-|[<-|[<-|[<-|[]]]]]]; reflexivity.
Qed.

Section RoundTrip.

Variable ast_module : string -> option Unparser.attribute.

Local Abbreviation dict_to_ast := (Unparser.dict_to_ast ast_module).

(** The loop of the decoder passes over a run of keys it skips. *)
Lemma prepare_fields_skip_prefix (header rest fields : dict) :
  (forall k, In k (keys header) -> Unparser.skipped k = true) ->
  Unparser.prepare_fields dict_to_ast (header ++ rest) fields
  = Unparser.prepare_fields dict_to_ast rest fields.
Proof.
  induction header as [|[k v] header IH]; intros Hskip; [reflexivity|].
  rewrite <- app_comm_cons, prepare_fields_cons, Hskip by now left.
  apply IH. intros k' Hk'. apply Hskip. now right.
Qed.

Lemma comprehension_map (A B C : Type) (f : B -> result C) (g : A -> B)
    (h : A -> C) (l : list A) :
  Forall (fun x => f (g x) = Ok (h x)) l ->
  comprehension f (map g l) = Ok (map h l).
Proof.
  induction 1 as [|x l Hx _ IH]; cbn [map comprehension]; [reflexivity|].
  rewrite Hx, IH. reflexivity.
Qed.

Lemma getattr_fields_only (c : class_info) (d : dict) (k : string) :
  getattr c (map (fun kv => (fst kv, fields_only (snd kv))) d) k
  = option_map fields_only (getattr c d k).
Proof.
  unfold getattr.
  assert (Hl : lookup k (map (fun kv => (fst kv, fields_only (snd kv))) d)
               = option_map fields_only (lookup k d)).
  { induction d as [|[k0 v0] r IH]; simpl; [reflexivity|].
    destruct (String.eqb k k0); [reflexivity | exact IH]. }
  rewrite Hl. destruct (lookup k d); simpl; [reflexivity|].
  destruct (existsb _ _); reflexivity.
Qed.

(** The structural fields of a node are those of the node kept by
    [fields_only], with [fields_only] inside them. *)
Lemma iter_fields_fields_only (c : class_info) (d : dict) :
  iter_fields c (map (fun kv => (fst kv, fields_only (snd kv))) d)
  = map (fun fv => (fst fv, fields_only (snd fv))) (iter_fields c d).
Proof.
  unfold iter_fields. induction (c_fields c) as [|f fs IH];
    cbn [flat_map]; [reflexivity|].
  rewrite map_app, IH, getattr_fields_only.
  destruct (getattr c d f); reflexivity.
Qed.

Lemma round_trip (v : value) :
  native ast_module v = true ->
  dict_to_ast (ast_to_dict v) = Ok (fields_only v).
Proof.
  induction v as [ | | | | | | | | l IH | d IH | c d IH | ] using value_deep_ind;
    intros Hnative; try reflexivity.
  - (* a list *)
    cbn [ast_to_dict Unparser.dict_to_ast fields_only].
    rewrite (comprehension_map _ _ _ dict_to_ast ast_to_dict fields_only); [reflexivity|].
    cbn [native] in Hnative. rewrite forallb_forall in Hnative.
    rewrite Forall_forall in IH |- *. intros x Hx. apply IH; auto.
  - (* a dictionary without [_type] *)
    cbn [native] in Hnative. apply negb_true_iff in Hnative.
    cbn [ast_to_dict Unparser.dict_to_ast fields_only]. unfold has_key in Hnative.
    destruct (lookup "_type" d); [discriminate | reflexivity].
  - (* a node *)
    cbn [native] in Hnative. apply andb_true_iff in Hnative.
    destruct Hnative as [Hclass Hvalues].
    apply is_grammar_class_spec in Hclass.
    destruct Hclass as (Hmodule & Hnd & Hskip).
    set (header := copy_positions c d [("_type", VStr (c_name c))]).
    assert (Hheader : forall k, In k (keys header) -> Unparser.skipped k = true).
    { intros k Hk. apply position_keys_skipped. apply keys_copy_positions in Hk.
      destruct Hk as [Hk|[<-|[]]]; [now right | now left]. }
    assert (Hkeys : NoDup (keys (iter_fields c d))).
    { rewrite keys_iter_fields. now apply NoDup_filter. }
    assert (Hfield : forall k, In k (keys (iter_fields c d)) -> Unparser.skipped k = false).
    { intros k Hk. rewrite keys_iter_fields in Hk. apply filter_In in Hk.
      now apply Hskip. }
    rewrite ast_to_dict_node. fold header.
    rewrite fold_encode_fresh.
    2: assumption.
    2: { intros k Hk Hin. specialize (Hfield k Hk).
         rewrite (Hheader k Hin) in Hfield. discriminate. }
    set (body := map (fun fv => (fst fv, ast_to_dict (snd fv))) (iter_fields c d)).
    assert (Hbody : keys body = keys (iter_fields c d)).
    { unfold body, keys. rewrite map_map. reflexivity. }
    assert (Htype : lookup "_type" (header ++ body) = Some (VStr (c_name c))).
    { rewrite lookup_app. unfold header. rewrite lookup_copy_positions. reflexivity. }
    rewrite (dict_to_ast_record ast_module (header ++ body) (c_name c)
               (Unparser.NodeClass c) Htype Hmodule).
    rewrite prepare_fields_skip_prefix by assumption.
    rewrite prepare_fields_spec.
    2: now rewrite Hbody.
    2: intros k _ [].
    assert (Hinputs : construction_inputs body = body).
    { unfold construction_inputs. apply forallb_filter_id. rewrite forallb_forall.
      intros [k x] Hin. cbn [fst]. apply negb_true_iff. apply Hfield.
      rewrite <- Hbody. unfold keys. change k with (fst (k, x)). now apply in_map. }
    rewrite Hinputs. unfold body. unfold decode_entry.
    rewrite (comprehension_map _ _ _ _ _ (fun fv => (fst fv, fields_only (snd fv)))).
    + cbn [bind app Unparser.construct fields_only].
      now rewrite iter_fields_fields_only.
    + rewrite Forall_forall. intros [f x] Hin. cbn [fst snd].
      apply in_iter_fields in Hin. destruct Hin as [_ Hg].
      assert (Hx : dict_to_ast (ast_to_dict x) = Ok (fields_only x)).
      { unfold getattr in Hg. destruct (lookup f d) as [x'|] eqn:Hl.
        - injection Hg as ->. apply lookup_in in Hl.
          rewrite Forall_forall in IH. rewrite forallb_forall in Hvalues.
          apply (IH (f, x) Hl). apply (Hvalues (f, x) Hl).
        - destruct (existsb _ _); [|discriminate]. injection Hg as <-. reflexivity. }
      now rewrite Hx.
Qed.

End RoundTrip.

Lemma lookup_iter_fields (c : class_info) (d : dict) (k : string) :
  lookup k (iter_fields c d)
  = if existsb (String.eqb k) (c_fields c) then getattr c d k else None.
Proof.
  destruct (existsb (String.eqb k) (c_fields c)) eqn:Hf.
  - apply existsb_eqb_In in Hf. destruct (getattr c d k) as [v|] eqn:Hg.
    + apply lookup_unique_value.
      * apply in_iter_fields. now split.
      * intros v' Hin. apply in_iter_fields in Hin. destruct Hin as [_ Hin]. congruence.
    + apply lookup_none_not_in. rewrite keys_iter_fields, filter_In.
      unfold hasattr. rewrite Hg. intros [_ H]. discriminate.
  - apply lookup_none_not_in. rewrite keys_iter_fields, filter_In.
    intros [Hin _]. apply existsb_eqb_In in Hin. congruence.
Qed.

(** The pairs of [ast.iter_fields], put in a dictionary of their own, are
    the structural fields of the node that has that dictionary. *)
Lemma iter_fields_idempotent (c : class_info) (d : dict) :
  iter_fields c (iter_fields c d) = iter_fields c d.
Proof.
  assert (Hg : forall f, In f (c_fields c) ->
                         getattr c (iter_fields c d) f = getattr c d f).
  { intros f Hf. unfold getattr at 1. rewrite lookup_iter_fields.
    apply existsb_eqb_In in Hf. rewrite Hf.
    destruct (getattr c d f) as [v|] eqn:Hv; [reflexivity|].
    unfold getattr in Hv. destruct (lookup f d); [discriminate|].
    destruct (existsb (String.eqb f) (c_none_attrs c)); [discriminate | reflexivity]. }
  unfold iter_fields at 1 3. revert Hg.
  induction (c_fields c) as [|f fs IH]; intros Hg; cbn [flat_map]; [reflexivity|].
  rewrite Hg by now left. f_equal. apply IH. intros f' Hf'. apply Hg. now right.
Qed.




(** * Further properties of the two scripts *)

(** ** The encoder applied twice *)

(** X1.  Encoding is idempotent: what [ast_to_dict] returns, it returns
    unchanged when given it again. *)
Theorem ast_to_dict_idempotent (v : value) :
  ast_to_dict (ast_to_dict v) = ast_to_dict v.
Proof.
  induction v as [ | | | | | | | | l IH | d IH | c d IH | ] using value_deep_ind;
    try reflexivity.
  (* a list; a node becomes a dictionary, which the encoder returns *)
  cbn [ast_to_dict]. f_equal. rewrite map_map. apply map_ext_in.
  intros x Hx. rewrite Forall_forall in IH. now apply IH.
Qed.

(** ** The record of a node, entry by entry *)

Lemma fold_copy_position_fresh (c : class_info) (d : dict) (ks : list string)
    (result : dict) :
  NoDup ks ->
  (forall k, In k ks -> ~ In k (keys result)) ->
  fold_left (fun result k => copy_position c d k result) ks result
  = result ++ flat_map (fun k => match getattr c d k with
                                 | Some v => [(k, v)]
                                 | None => []
                                 end) ks.
Proof.
  revert result. induction ks as [|k ks IH]; intros result Hnd Hfresh;
    cbn [fold_left flat_map].
  - now rewrite app_nil_r.
  - inversion Hnd as [|? ? Hnotin Hnd']; subst. unfold copy_position at 2.
    destruct (getattr c d k) as [v|].
    + rewrite IH.
      * rewrite dict_set_fresh, <- app_assoc; [reflexivity|].
        apply Hfresh. now left.
      * assumption.
      * intros k' Hk' Hin. apply keys_dict_set in Hin. destruct Hin as [->|Hin].
        -- contradiction.
        -- apply (Hfresh k'); [now right | assumption].
    + rewrite IH; [reflexivity | assumption |].
      intros k' Hk'. apply Hfresh. now right.
Qed.

Lemma NoDup_position_keys : NoDup position_keys.
Proof.
  unfold position_keys. repeat constructor; simpl;
    intros H; repeat destruct H as [H|H]; try discriminate; exact H.
Qed.

Lemma copy_positions_header (c : class_info) (d : dict) :
  copy_positions c d [("_type", VStr (c_name c))]
  = ("_type", VStr (c_name c)) :: position_entries c d.
Proof.
  unfold copy_positions. rewrite fold_copy_position_fresh.
  - reflexivity.
  - exact NoDup_position_keys.
  - intros k Hk [Heq|[]]. subst k. simpl in Hk.
    repeat destruct Hk as [Hk|Hk]; try discriminate; exact Hk.
Qed.

Lemma keys_position_entries (c : class_info) (d : dict) (k : string) :
  In k (keys (position_entries c d)) -> In k position_keys.
Proof.
  unfold position_entries, keys. rewrite in_map_iff.
  intros ([k' v] & Heq & Hin). cbn [fst] in Heq. subst k'.
  apply in_flat_map in Hin. destruct Hin as (p & Hp & Hin).
  destruct (getattr c d p); [|destruct Hin].
  destruct Hin as [[= <- _]|[]]. exact Hp.
Qed.

Lemma fields_after_header (c : class_info) (d : dict) :
  NoDup (c_fields c) ->
  (forall f, In f (c_fields c) -> f <> "_type" /\ ~ In f position_keys) ->
  fold_left (encode_field ast_to_dict) (iter_fields c d)
    (("_type", VStr (c_name c)) :: position_entries c d)
  = (("_type", VStr (c_name c)) :: position_entries c d)
    ++ map (fun fv => (fst fv, ast_to_dict (snd fv))) (iter_fields c d).
Proof.
  intros Hnd Hfields. apply fold_encode_fresh.
  - rewrite keys_iter_fields. now apply NoDup_filter.
  - intros k Hk Hin. rewrite keys_iter_fields in Hk. apply filter_In in Hk.
    destruct (Hfields k (proj1 Hk)) as [Htype Hpos].
    destruct Hin as [Heq|Hin]; [now apply Htype|].
    apply Hpos. now apply (keys_position_entries c d).
Qed.

(** X2.  The record of a node whose class has distinct fields, none called
    [_type] or like a position attribute, is laid out as: [_type] with the
    name of the class, then the position attributes the node has, in the
    order [lineno], [col_offset], [end_lineno], [end_col_offset] and with the
    values the node holds, then one entry for each pair of
    [ast.iter_fields], in the order of [_fields], holding the encoding of
    the value. *)
Theorem encoded_node_layout (c : class_info) (d : dict) :
  NoDup (c_fields c) ->
  (forall f, In f (c_fields c) -> f <> "_type" /\ ~ In f position_keys) ->
  ast_to_dict (VNode c d)
  = VDict (("_type", VStr (c_name c))
           :: position_entries c d
           ++ map (fun fv => (fst fv, ast_to_dict (snd fv))) (iter_fields c d)).
Proof.
  intros Hnd Hfields.
  rewrite ast_to_dict_node, copy_positions_header.
  rewrite fields_after_header by assumption.
  reflexivity.
Qed.

Lemma encoded_node_layout_witness :
  (NoDup (c_fields Sample.Name) /\
   (forall f, In f (c_fields Sample.Name) -> f <> "_type" /\ ~ In f position_keys)) /\
  ast_to_dict (VNode Sample.Name
                 [("id", VStr "x"); ("ctx", VNode Sample.Load []);
                  ("col_offset", VInt 4); ("lineno", VInt 2)])
  = VDict [("_type", VStr "Name"); ("lineno", VInt 2); ("col_offset", VInt 4);
           ("end_lineno", VNone); ("end_col_offset", VNone);
           ("id", VStr "x"); ("ctx", VDict [("_type", VStr "Load")])].
Proof.
  assert (Hnd : NoDup (c_fields Sample.Name)).
  { apply distinct_NoDup. reflexivity. }
  assert (Hf : forall f, In f (c_fields Sample.Name) ->
                         f <> "_type" /\ ~ In f position_keys).
  { intros f [<-|[<-|[]]]; (split; [discriminate|]); simpl;
      intros H; repeat destruct H as [H|H]; try discriminate; exact H. }
  split; [split; assumption|].
  exact (encoded_node_layout Sample.Name
           [("id", VStr "x"); ("ctx", VNode Sample.Load []);
            ("col_offset", VInt 4); ("lineno", VInt 2)] Hnd Hf).
Defined.

(** ** From the encoder to the decoder's first test *)

Lemma json_dumps_dict (d : dict) (j : json) :
  json_dumps (VDict d) = Ok j ->
  exists ms, j = JObj ms /\ map fst ms = keys d.
Proof.
  cbn [json_dumps].
  destruct (comprehension (fun kv => j0 <- json_dumps (snd kv) ;; Ok (fst kv, j0)) d)
    as [ms|e] eqn:Hms; cbn [bind]; [|discriminate].
  intros [= <-]. exists ms. split; [reflexivity|].
  revert ms Hms. induction d as [|[k v] r IH]; intros ms; cbn [comprehension].
  - intros [= <-]. reflexivity.
  - cbn [fst snd]. destruct (json_dumps v) as [jv|]; cbn [bind]; [|discriminate].
    destruct (comprehension _ r) as [ms'|]; cbn [bind]; [|discriminate].
    intros [= <-]. cbn [map fst keys]. f_equal. now apply IH.
Qed.

Lemma has_key_keys (k : string) (d : dict) :
  has_key k d = existsb (String.eqb k) (keys d).
Proof.
  unfold has_key. induction d as [|[k0 v0] r IH]; cbn [lookup keys map fst existsb].
  - reflexivity.
  - destruct (String.eqb k k0); [reflexivity | exact IH].
Qed.

Lemma node_record_is_discriminated (c : class_info) (d : dict) :
  Unparser.is_discriminated (ast_to_dict (VNode c d)) = true.
Proof.
  pose proof (record_get_ast_to_dict c d "_type") as H.
  rewrite ast_to_dict_node in *. cbn [record_get Unparser.is_discriminated] in *.
  unfold has_key. rewrite H.
  destruct (if existsb (String.eqb "_type") (c_fields c)
            then getattr c d "_type" else None); reflexivity.
Qed.

(** [unparse_ast] raises nothing of the class [Exception] but its own
    [ValueError]. *)
Lemma unparse_ast_raises (ast_module : string -> option Unparser.attribute)
    (ast_unparse : value -> result string) (ast_dict : value) (e : exn) :
  Unparser.unparse_ast ast_module ast_unparse ast_dict = Raise e ->
  is_Exception e = false \/
  exists inner, e = ValueError ("Failed to unparse AST: " ++ e_str inner).
Proof.
  unfold Unparser.unparse_ast.
  destruct (tree <- Unparser.dict_to_ast ast_module ast_dict ;; ast_unparse tree)
    as [source|inner]; [discriminate|].
  destruct (is_Exception inner) eqn:Hexc; intros [= <-].
  - right. now exists inner.
  - now left.
Qed.

(** X3.  The record the encoder writes for a node always has [_type], so
    its JSON text is an object with that member, and the decoder never
    answers it with [Invalid AST format]. *)
Theorem encoder_payload_passes_format_check
    (ast_module : string -> option Unparser.attribute)
    (ast_unparse : value -> result string)
    (c : class_info) (d : dict) (payload : json) :
  json_dumps (ast_to_dict (VNode c d)) = Ok payload ->
  json_is_discriminated payload = true /\
  Unparser.main ast_module ast_unparse payload
  <> mkProcess [json_failure "ValueError" "Invalid AST format"] None.
Proof.
  intros Hdumps.
  assert (Hdisc : json_is_discriminated payload = true).
  { pose proof (node_record_is_discriminated c d) as Hd.
    rewrite ast_to_dict_node in Hd, Hdumps.
    apply json_dumps_dict in Hdumps. destruct Hdumps as (ms & -> & Hkeys).
    cbn [Unparser.is_discriminated] in Hd. rewrite has_key_keys, <- Hkeys in Hd.
    cbn [json_is_discriminated]. etransitivity; [|exact Hd]. clear.
    induction ms as [|[k v] ms IH]; [reflexivity|].
    cbn [existsb map fst]. now rewrite IH. }
  split; [exact Hdisc|].
  unfold Unparser.main. rewrite is_discriminated_loads, Hdisc. cbn [negb].
  destruct (Unparser.unparse_ast ast_module ast_unparse (json_loads payload))
    as [source|e] eqn:Hun.
  - discriminate.
  - apply unparse_ast_raises in Hun. destruct Hun as [Hexc|(inner & ->)].
    + rewrite Hexc. discriminate.
    + cbn. discriminate.
Qed.

Lemma encoder_payload_passes_format_check_witness :
  let payload := JObj [("_type", JStr "Load")] in
  json_dumps (ast_to_dict (VNode Sample.Load [])) = Ok payload /\
  json_is_discriminated payload = true.
Proof.
  intros payload. split.
  - reflexivity.
  - exact (proj1 (encoder_payload_passes_format_check
                    Sample.ast_module Sample.ast_unparse Sample.Load [] payload
                    eq_refl)).
Defined.

(** ** What the encoder leaves of a tree of plain leaves *)

Lemma in_dict_set (k k' : string) (x v : value) (d : dict) :
  In (k, x) (dict_set k' v d) -> (k, x) = (k', v) \/ In (k, x) d.
Proof.
  induction d as [|[k0 v0] r IH]; cbn [dict_set].
  - intros [H|[]]. left. now symmetry.
  - destruct (String.eqb k' k0).
    + intros [H|H]; [left; now symmetry | right; now right].
    + intros [H|H]; [right; now left|].
      destruct (IH H) as [Heq|Hin]; [now left | right; now right].
Qed.

Lemma in_fold_encode (k : string) (x : value) (l : list (string * value))
    (result : dict) :
  In (k, x) (fold_left (encode_field ast_to_dict) l result) ->
  In (k, x) result \/ exists v, In (k, v) l /\ x = ast_to_dict v.
Proof.
  revert result. induction l as [|[f v] l IH]; intros result; cbn [fold_left].
  - now left.
  - intros Hin. apply IH in Hin. destruct Hin as [Hin|(v' & Hin & ->)].
    + rewrite encode_field_set in Hin. apply in_dict_set in Hin.
      destruct Hin as [[= -> ->]|Hin]; [|now left].
      right. exists v. split; [now left | reflexivity].
    + right. exists v'. split; [now right | reflexivity].
Qed.

Lemma in_copy_positions (c : class_info) (d : dict) (k : string) (x : value)
    (result : dict) :
  In (k, x) (copy_positions c d result) ->
  In (k, x) result \/ (In k position_keys /\ getattr c d k = Some x).
Proof.
  unfold copy_positions. generalize position_keys as ks. intros ks. revert result.
  induction ks as [|p ks IH]; intros result; cbn [fold_left].
  - now left.
  - intros Hin. apply IH in Hin. destruct Hin as [Hin|[Hk Hg]].
    + unfold copy_position in Hin. destruct (getattr c d p) as [v|] eqn:Hp.
      * apply in_dict_set in Hin. destruct Hin as [[= -> ->]|Hin]; [|now left].
        right. split; [now left | assumption].
      * now left.
    + right. split; [now right | assumption].
Qed.

Lemma getattr_in (c : class_info) (d : dict) (k : string) (x : value) :
  getattr c d k = Some x -> In (k, x) d \/ x = VNone.
Proof.
  unfold getattr. destruct (lookup k d) as [v|] eqn:Hl.
  - intros [= <-]. left. now apply lookup_in.
  - destruct (existsb _ _); [|discriminate]. intros [= <-]. now right.
Qed.

(** X4.  When the leaves of a tree, and what its nodes hold under the
    position attributes, are [None], booleans, numbers and strings (or lists
    and dictionaries of such), the value the encoder returns is made of
    dictionaries, lists and such leaves only: no node, no [bytes], no
    complex number and no [Ellipsis] is left in it. *)
Theorem encoding_of_plain_tree_holds_json_types (v : value) :
  plain_tree v = true -> json_types_only (ast_to_dict v) = true.
Proof.
  induction v as [ | | | | | | | | l IH | d IH | c d IH | ] using value_deep_ind;
    intros Hs; try exact Hs.
  - (* a list *)
    cbn [plain_tree] in Hs. rewrite forallb_forall in Hs.
    cbn [ast_to_dict json_types_only]. apply forallb_forall.
    intros y Hy. apply in_map_iff in Hy. destruct Hy as (x & <- & Hx).
    rewrite Forall_forall in IH. apply IH; auto.
  - (* a node *)
    cbn [plain_tree] in Hs. rewrite forallb_forall in Hs.
    rewrite Forall_forall in IH.
    rewrite ast_to_dict_node. cbn [json_types_only]. apply forallb_forall.
    intros [k x] Hin. cbn [snd].
    apply in_fold_encode in Hin. destruct Hin as [Hin|(v & Hin & ->)].
    + apply in_copy_positions in Hin. destruct Hin as [[[= <- <-]|[]]|[Hk Hg]].
      * reflexivity.
      * apply getattr_in in Hg. destruct Hg as [Hg| ->]; [|reflexivity].
        specialize (Hs (k, x) Hg). cbn [fst snd] in Hs.
        apply andb_true_iff in Hs. destruct Hs as [_ Hs].
        apply existsb_eqb_In in Hk. rewrite Hk in Hs. exact Hs.
    + apply in_iter_fields in Hin. destruct Hin as [_ Hg].
      apply getattr_in in Hg. destruct Hg as [Hg| ->]; [|reflexivity].
      apply (IH (k, v) Hg). specialize (Hs (k, v) Hg). cbn [fst snd] in Hs.
      apply andb_true_iff in Hs. now destruct Hs.
Qed.

Lemma encoding_of_plain_tree_holds_json_types_witness :
  let tree := Sample.module_of
                [Sample.expr_stmt Sample.Name
                   [("id", VStr "x"); ("ctx", VNode Sample.Load [])] 1] in
  plain_tree tree = true /\ json_types_only (ast_to_dict tree) = true.
Proof.
  intros tree. split.
  - reflexivity.
  - exact (encoding_of_plain_tree_holds_json_types tree eq_refl).
Defined.

(** ** The encoder on the exceptions of [ast.parse] *)

(** X5.  An exception of [ast.parse] that is no [SyntaxError]: if it is of
    the class [Exception], the run prints one failure envelope with the name
    of its type and its text, and ends normally; if it is not, nothing is
    printed and the exception ends the run. *)
Theorem encoder_exception_lines (ast_parse : string -> result value)
    (source : string) (e : exn) :
  ast_parse source = Raise e ->
  (e_class e = IsException ->
   Parser.main ast_parse source
   = mkProcess [json_failure (e_type e) (e_str e)] None) /\
  (e_class e = IsBaseException ->
   Parser.main ast_parse source = mkProcess [] (Some e)).
Proof.
  intros Hraise. unfold Parser.main, Parser.parse_source.
  rewrite Hraise. cbn [bind]. split; intros ->; reflexivity.
Qed.

Lemma encoder_exception_lines_witness :
  let nul := String (ascii_of_nat 0) EmptyString in
  let e := ValueError "source code string cannot contain null bytes" in
  let ast_parse := fun _ : string => @Raise value e in
  (ast_parse nul = Raise e /\ e_class e = IsException) /\
  Parser.main ast_parse nul
  = mkProcess [json_failure "ValueError"
                 "source code string cannot contain null bytes"] None.
Proof.
  intros nul e ast_parse. split.
  - split; reflexivity.
  - exact (proj1 (encoder_exception_lines ast_parse nul e eq_refl) eq_refl).
Defined.

(** ** The decoder on what holds no discriminated record *)

(** X7.  A value in which no record has [_type], lists looked through, is
    returned by the decoder as it is, whatever the [ast] module holds. *)
Theorem undiscriminated_value_unchanged
    (ast_module : string -> option Unparser.attribute) (v : value) :
  undiscriminated v = true ->
  Unparser.dict_to_ast ast_module v = Ok v.
Proof.
  induction v as [ | | | | | | | | l IH | d IH | c d IH | ] using value_deep_ind;
    intros Hu; try reflexivity.
  - cbn [undiscriminated] in Hu. rewrite forallb_forall in Hu.
    cbn [Unparser.dict_to_ast].
    rewrite <- (map_id l) at 1.
    rewrite (comprehension_map _ _ _ _ (fun x => x) (fun x => x)).
    + now rewrite map_id.
    + rewrite Forall_forall in IH |- *. intros x Hx. apply IH; auto.
  - cbn [undiscriminated] in Hu. apply negb_true_iff in Hu. unfold has_key in Hu.
    cbn [Unparser.dict_to_ast]. destruct (lookup "_type" d); [discriminate | reflexivity].
Qed.

Lemma undiscriminated_value_unchanged_witness :
  let v := VList [VInt 1; VList [VDict [("a", VStr "b")]; VNone]] in
  undiscriminated v = true /\ Unparser.dict_to_ast Sample.ast_module v = Ok v.
Proof.
  intros v. split.
  - reflexivity.
  - exact (undiscriminated_value_unchanged Sample.ast_module v eq_refl).
Defined.

(** ** The decoder on lists *)

Lemma comprehension_Forall2 (A B : Type) (f : A -> result B) (l : list A)
    (ys : list B) :
  comprehension f l = Ok ys <-> Forall2 (fun x y => f x = Ok y) l ys.
Proof.
  revert ys. induction l as [|x l IH]; intros ys; cbn [comprehension].
  - split.
    + intros [= <-]. constructor.
    + intros H. inversion H. reflexivity.
  - split.
    + destruct (f x) as [y|] eqn:Hx; cbn [bind]; [|discriminate].
      destruct (comprehension f l) as [ys'|] eqn:Hl; cbn [bind]; [|discriminate].
      intros [= <-]. constructor; [assumption | now apply IH].
    + intros H. inversion H as [|? y ? ys' Hx Hrest]; subst.
      apply IH in Hrest. rewrite Hx, Hrest. reflexivity.
Qed.

(** The exception of a comprehension is that of its first item to raise
    one. *)
Lemma comprehension_first_raise (A B : Type) (f : A -> result B) (l : list A)
    (e : exn) :
  comprehension f l = Raise e <->
  exists before x after ys,
    l = before ++ x :: after /\
    comprehension f before = Ok ys /\
    f x = Raise e.
Proof.
  induction l as [|x l IH]; cbn [comprehension].
  - split; [discriminate|].
    intros (before & x & after & ys & Heq & _). destruct before; discriminate.
  - split.
    + destruct (f x) as [y|e'] eqn:Hx; cbn [bind].
      * destruct (comprehension f l) as [ys'|e'] eqn:Hl; cbn [bind]; [discriminate|].
        intros [= <-]. destruct (proj1 IH eq_refl) as (before & x' & after & ys & -> & Hb & Hx').
        exists (x :: before), x', after, (y :: ys).
        split; [reflexivity | split; [|assumption]].
        cbn [comprehension]. now rewrite Hx, Hb.
      * intros [= <-]. exists [], x, l, []. repeat split; assumption.
    + intros (before & x' & after & ys & Heq & Hb & Hx').
      destruct before as [|b before]; cbn [app] in Heq; injection Heq as <- ->.
      * now rewrite Hx'.
      * cbn [comprehension] in Hb.
        destruct (f x) as [y|]; cbn [bind] in *; [|discriminate].
        destruct (comprehension f before) as [ys'|] eqn:Hb'; cbn [bind] in Hb;
          [|discriminate].
        assert (Hl : comprehension f (before ++ x' :: after) = Raise e).
        { apply IH. now exists before, x', after, ys'. }
        now rewrite Hl.
Qed.

(** X8.  The decoder returns for a list the list of what it returns for
    the items, in their order, and so of the same length; it raises on a list
    exactly what it raises on the first item it raises on, the items before
    having been decoded. *)
Theorem list_decoded_item_by_item
    (ast_module : string -> option Unparser.attribute) (l : list value) :
  (forall w, Unparser.dict_to_ast ast_module (VList l) = Ok w <->
     exists items, w = VList items /\
       Forall2 (fun x y => Unparser.dict_to_ast ast_module x = Ok y) l items) /\
  (forall items, Unparser.dict_to_ast ast_module (VList l) = Ok (VList items) ->
     length items = length l) /\
  (forall e, Unparser.dict_to_ast ast_module (VList l) = Raise e <->
     exists before x after decoded,
       l = before ++ x :: after /\
       comprehension (Unparser.dict_to_ast ast_module) before = Ok decoded /\
       Unparser.dict_to_ast ast_module x = Raise e).
Proof.
  assert (Hok : forall w, Unparser.dict_to_ast ast_module (VList l) = Ok w <->
     exists items, w = VList items /\
       Forall2 (fun x y => Unparser.dict_to_ast ast_module x = Ok y) l items).
  { intros w. cbn [Unparser.dict_to_ast]. split.
    - destruct (comprehension (Unparser.dict_to_ast ast_module) l) as [items|] eqn:Hl;
        cbn [bind]; [|discriminate].
      intros [= <-]. exists items. split; [reflexivity|].
      now apply comprehension_Forall2.
    - intros (items & -> & Hall). apply comprehension_Forall2 in Hall.
      now rewrite Hall. }
  split; [exact Hok | split].
  - intros items H. apply Hok in H. destruct H as (items' & [= ->] & Hall).
    symmetry. eapply Forall2_length. exact Hall.
  - intros e. rewrite <- comprehension_first_raise. cbn [Unparser.dict_to_ast].
    destruct (comprehension (Unparser.dict_to_ast ast_module) l); cbn [bind];
      split; congruence.
Qed.

(** ** The decoder's answer to a loaded document *)

Lemma comprehension_raises_in (A B : Type) (f : A -> result B) (l : list A) (e : exn) :
  comprehension f l = Raise e -> exists x, In x l /\ f x = Raise e.
Proof.
  intros H. apply comprehension_first_raise in H.
  destruct H as (before & x & after & ys & -> & _ & Hx).
  exists x. split; [|assumption]. apply in_or_app. right. now left.
Qed.

Lemma prepare_fields_raises (ast_module : string -> option Unparser.attribute)
    (d fields : dict) (e : exn) :
  Unparser.prepare_fields (Unparser.dict_to_ast ast_module) d fields = Raise e ->
  exists k x, In (k, x) d /\ Unparser.dict_to_ast ast_module x = Raise e.
Proof.
  revert fields. induction d as [|[key x] rest IH]; intros fields.
  - discriminate.
  - rewrite prepare_fields_cons. destruct (Unparser.skipped key).
    + intros H. destruct (IH _ H) as (k & y & Hin & Hy).
      exists k, y. split; [now right | assumption].
    + destruct (Unparser.dict_to_ast ast_module x) as [v|e'] eqn:Hx; cbn [bind].
      * intros H. destruct (IH _ H) as (k & y & Hin & Hy).
        exists k, y. split; [now right | assumption].
      * intros [= <-]. exists key, x. split; [now left | assumption].
Qed.

(** Decoding a document that names node classes only raises nothing but
    the decoder's own [ValueError] and [TypeError]. *)
Lemma dict_to_ast_raises_Exception
    (ast_module : string -> option Unparser.attribute) (v : value) :
  names_node_classes ast_module v = true ->
  forall e, Unparser.dict_to_ast ast_module v = Raise e -> is_Exception e = true.
Proof.
  induction v as [ | | | | | | | | l IH | d IH | c d IH | ] using value_deep_ind;
    intros Hnames e; try discriminate.
  - cbn [names_node_classes] in Hnames. rewrite forallb_forall in Hnames.
    cbn [Unparser.dict_to_ast].
    destruct (comprehension (Unparser.dict_to_ast ast_module) l) as [items|e'] eqn:Hl;
      cbn [bind]; [discriminate|].
    intros [= <-]. apply comprehension_raises_in in Hl.
    destruct Hl as (x & Hin & Hx). rewrite Forall_forall in IH.
    exact (IH x Hin (Hnames x Hin) e' Hx).
  - cbn [names_node_classes] in Hnames. cbn [Unparser.dict_to_ast].
    destruct (lookup "_type" d) as [node_type|]; [|discriminate].
    destruct node_type; try (intros [= <-]; reflexivity).
    destruct (ast_module s) as [[c|call]|]; [| discriminate Hnames
                                             | intros [= <-]; reflexivity].
    rewrite forallb_forall in Hnames.
    destruct (Unparser.prepare_fields (Unparser.dict_to_ast ast_module) d [])
      as [fields|e'] eqn:Hfields; cbn [bind Unparser.construct]; [discriminate|].
    intros [= <-]. apply prepare_fields_raises in Hfields.
    destruct Hfields as (k & x & Hin & Hx). rewrite Forall_forall in IH.
    exact (IH (k, x) Hin (Hnames (k, x) Hin) e' Hx).
Qed.

(** X6.  On a loaded document that names node classes only, if what
    [ast.unparse] raises on the rebuilt tree is of the class [Exception], the
    run prints exactly one line and ends normally: [Invalid AST format] for a
    document that is no record with [_type]; otherwise the success envelope
    with the text [ast.unparse] returned, or the failure envelope of type
    [ValueError] with the text of the exception that rebuilding or printing
    raised, after [Failed to unparse AST: ]. *)
Theorem decoder_run_answers_with_one_line
    (ast_module : string -> option Unparser.attribute)
    (ast_unparse : value -> result string)
    (exhausts : value -> option string) (data : value) :
  names_node_classes ast_module data = true ->
  (forall tree e,
     UnparserRun.dict_to_ast ast_module exhausts data = Ok tree ->
     ast_unparse tree = Raise e -> is_Exception e = true) ->
  UnparserRun.main ast_module ast_unparse exhausts (Ok data)
  = mkProcess
      [if Unparser.is_discriminated data
       then match (tree <- UnparserRun.dict_to_ast ast_module exhausts data ;;
                   ast_unparse tree) with
            | Ok text => json_source text
            | Raise e =>
                json_failure "ValueError" ("Failed to unparse AST: " ++ e_str e)
            end
       else json_failure "ValueError" "Invalid AST format"] None.
Proof.
  intros Hnames Hunparse. unfold UnparserRun.main.
  destruct (Unparser.is_discriminated data); cbn [negb]; [|reflexivity].
  unfold UnparserRun.unparse_ast.
  destruct (UnparserRun.dict_to_ast ast_module exhausts data) as [tree|e] eqn:Hd;
    cbn [bind].
  - destruct (ast_unparse tree) as [text|e] eqn:Hu; [reflexivity|].
    rewrite (Hunparse tree e eq_refl Hu). reflexivity.
  - assert (He : is_Exception e = true).
    { unfold UnparserRun.dict_to_ast in Hd. destruct (exhausts data) as [msg|].
      - injection Hd as <-. reflexivity.
      - exact (dict_to_ast_raises_Exception ast_module data Hnames e Hd). }
    rewrite He. reflexivity.
Qed.

Lemma decoder_run_answers_with_one_line_witness :
  let data := VDict [("_type", VStr "Module");
                     ("body", VList [VDict [("_type", VStr "Expr");
                                            ("value", VDict [("_type", VStr "Nope")])]]);
                     ("type_ignores", VList [])] in
  names_node_classes Sample.ast_module data = true /\
  UnparserRun.main Sample.ast_module Sample.ast_unparse (fun _ => None) (Ok data)
  = mkProcess
      [json_failure "ValueError"
         "Failed to unparse AST: Unknown AST node type: Nope"] None.
Proof.
  intros data. split.
  - reflexivity.
  - apply (decoder_run_answers_with_one_line
             Sample.ast_module Sample.ast_unparse (fun _ => None) data eq_refl).
    intros tree e Hd. discriminate Hd.
Defined.

(** ** The decoder on a name the [ast] module does not have *)

(** X9.  When [json.loads] returns a record whose [_type] is a string that
    is no name of the [ast] module, the run prints one failure envelope of
    type [ValueError], its message ending with the name, whatever the other
    fields of the record hold: the name is looked up before any field is
    decoded. *)
Theorem unknown_root_type_refused
    (ast_module : string -> option Unparser.attribute)
    (ast_unparse : value -> result string)
    (exhausts : value -> option string) (data : value) (name : string) :
  record_get "_type" data = Some (VStr name) ->
  ast_module name = None ->
  exhausts data = None ->
  UnparserRun.main ast_module ast_unparse exhausts (Ok data)
  = mkProcess
      [json_failure "ValueError"
         ("Failed to unparse AST: Unknown AST node type: " ++ name)] None.
Proof.
  intros Htype Hnone Hstack. unfold UnparserRun.main.
  destruct data as [ | | | | | | | | |d| | ]; try discriminate.
  cbn [record_get] in Htype. cbn [Unparser.is_discriminated]. unfold has_key.
  rewrite Htype. cbn [negb].
  unfold UnparserRun.unparse_ast, UnparserRun.dict_to_ast. rewrite Hstack.
  cbn [Unparser.dict_to_ast]. rewrite Htype, Hnone. reflexivity.
Qed.

Lemma unknown_root_type_refused_witness :
  let document := JObj [("body", JArr [JObj [("_type", JStr "parse")]]);
                        ("_type", JStr "NotARealConstruct")] in
  let data := VDict [("body", VList [VDict [("_type", VStr "parse")]]);
                     ("_type", VStr "NotARealConstruct")] in
  (SampleJson.loads document = Ok data /\
   record_get "_type" data = Some (VStr "NotARealConstruct") /\
   Sample.ast_module "NotARealConstruct" = None) /\
  UnparserRun.main Sample.ast_module Sample.ast_unparse (fun _ => None)
    (SampleJson.loads document)
  = mkProcess
      [json_failure "ValueError"
         "Failed to unparse AST: Unknown AST node type: NotARealConstruct"] None.
Proof.
  intros document data. split.
  - repeat split.
  - exact (unknown_root_type_refused Sample.ast_module Sample.ast_unparse
             (fun _ => None) data "NotARealConstruct" eq_refl eq_refl eq_refl).
Defined.

(** ** The decoder on a record with a field it cannot decode *)

Lemma construction_inputs_app (d1 d2 : dict) :
  construction_inputs (d1 ++ d2) = construction_inputs d1 ++ construction_inputs d2.
Proof. unfold construction_inputs. apply filter_app. Qed.

(** X13.  In a record the decoder rebuilds, the fields are decoded in the
    order of the record: when the fields before one decode and that one
    raises, the record raises the same exception, and the constructor is not
    called. *)
Theorem first_failing_field_raised
    (ast_module : string -> option Unparser.attribute)
    (name : string) (node_class : Unparser.attribute)
    (before after : dict) (key : string) (x : value) (decoded : dict) (e : exn) :
  NoDup (keys (before ++ (key, x) :: after)) ->
  lookup "_type" (before ++ (key, x) :: after) = Some (VStr name) ->
  ast_module name = Some node_class ->
  Unparser.skipped key = false ->
  comprehension (decode_entry (Unparser.dict_to_ast ast_module))
    (construction_inputs before) = Ok decoded ->
  Unparser.dict_to_ast ast_module x = Raise e ->
  Unparser.dict_to_ast ast_module (VDict (before ++ (key, x) :: after)) = Raise e.
Proof.
  intros Hnd Htype Hclass Hkey Hbefore Hx.
  rewrite (dict_to_ast_record ast_module _ name node_class Htype Hclass).
  rewrite prepare_fields_spec; [|assumption|intros k _ []].
  assert (Hraise : comprehension (decode_entry (Unparser.dict_to_ast ast_module))
                     (construction_inputs (before ++ (key, x) :: after)) = Raise e).
  { apply comprehension_first_raise.
    exists (construction_inputs before), (key, x), (construction_inputs after), decoded.
    split; [|split].
    - rewrite construction_inputs_app. f_equal.
      unfold construction_inputs. cbn [filter fst]. now rewrite Hkey.
    - assumption.
    - unfold decode_entry. cbn [fst snd]. now rewrite Hx. }
  now rewrite Hraise.
Qed.

Lemma first_failing_field_raised_witness :
  let before := [("_type", VStr "Module")] in
  let x := VList [VDict [("_type", VStr "Nope")]] in
  let after := [("type_ignores", VList [VDict [("_type", VInt 1)]])] in
  let e := ValueError "Unknown AST node type: Nope" in
  (NoDup (keys (before ++ ("body", x) :: after)) /\
   lookup "_type" (before ++ ("body", x) :: after) = Some (VStr "Module") /\
   Sample.ast_module "Module" = Some (Unparser.NodeClass Sample.Module_) /\
   Unparser.skipped "body" = false /\
   comprehension (decode_entry (Unparser.dict_to_ast Sample.ast_module))
     (construction_inputs before) = Ok [] /\
   Unparser.dict_to_ast Sample.ast_module x = Raise e) /\
  Unparser.dict_to_ast Sample.ast_module (VDict (before ++ ("body", x) :: after))
  = Raise e.
Proof.
  intros before x after e.
  assert (Hnd : NoDup (keys (before ++ ("body", x) :: after))).
  { apply distinct_NoDup. reflexivity. }
  split.
  - split; [exact Hnd | repeat split].
  - exact (first_failing_field_raised Sample.ast_module "Module"
             (Unparser.NodeClass Sample.Module_) before after "body" x [] e
             Hnd eq_refl eq_refl eq_refl eq_refl eq_refl).
Defined.

(** ** A second round trip *)

Lemma in_iter_fields_value (c : class_info) (d : dict) (f : string) (x : value) :
  In (f, x) (iter_fields c d) -> In (f, x) d \/ x = VNone.
Proof.
  intros Hin. apply in_iter_fields in Hin. destruct Hin as [_ Hg].
  exact (getattr_in c d f x Hg).
Qed.

(** X12.  The tree a round trip returns is again a tree of the grammar, and
    a second round trip returns it as it is. *)
Theorem round_trip_reaches_fixed_point
    (ast_module : string -> option Unparser.attribute) (v : value) :
  native ast_module v = true ->
  native ast_module (fields_only v) = true /\
  fields_only (fields_only v) = fields_only v /\
  Unparser.dict_to_ast ast_module (ast_to_dict (fields_only v)) = Ok (fields_only v).
Proof.
  intros Hnative.
  assert (H : native ast_module (fields_only v) = true /\
              fields_only (fields_only v) = fields_only v).
  { revert Hnative.
    induction v as [ | | | | | | | | l IH | d IH | c d IH | ] using value_deep_ind;
      intros Hnative; try (split; [exact Hnative | reflexivity]).
    - (* a list *)
      cbn [native fields_only] in *. rewrite forallb_forall in Hnative.
      rewrite Forall_forall in IH. split.
      + apply forallb_forall. intros y Hy. apply in_map_iff in Hy.
        destruct Hy as (x & <- & Hx). now apply IH; auto.
      + f_equal. rewrite map_map. apply map_ext_in. intros x Hx. now apply IH; auto.
    - (* a node *)
      cbn [native fields_only] in *. apply andb_true_iff in Hnative.
      destruct Hnative as [Hclass Hvalues]. rewrite forallb_forall in Hvalues.
      rewrite Forall_forall in IH.
      assert (Hentry : forall f x, In (f, x) (iter_fields c d) ->
                native ast_module (fields_only x) = true /\
                fields_only (fields_only x) = fields_only x).
      { intros f x Hin. apply in_iter_fields_value in Hin.
        destruct Hin as [Hin| ->]; [|split; reflexivity].
        apply (IH (f, x) Hin). apply (Hvalues (f, x) Hin). }
      split.
      + rewrite Hclass. cbn [andb]. rewrite (iter_fields_fields_only c d).
        apply forallb_forall. intros [f y] Hy. apply in_map_iff in Hy.
        destruct Hy as ([f' x] & [= <- <-] & Hx). cbn [fst snd].
        now apply (Hentry f' x).
      + f_equal.
        rewrite (iter_fields_fields_only c (iter_fields c _)), iter_fields_idempotent.
        rewrite (iter_fields_fields_only c d), map_map.
        apply map_ext_in. intros [f x] Hx. cbn [fst snd].
        f_equal. now apply (Hentry f x). }
  destruct H as [Hn Hf]. split; [exact Hn | split; [exact Hf|]].
  rewrite <- Hf at 2. now apply round_trip.
Qed.

Lemma round_trip_reaches_fixed_point_witness :
  let tree := Sample.module_of
                [Sample.expr_stmt Sample.Name
                   [("id", VStr "x"); ("ctx", VNode Sample.Load [])] 1] in
  native Sample.ast_module tree = true /\
  fields_only (fields_only tree) = fields_only tree.
Proof.
  intros tree. split.
  - reflexivity.
  - exact (proj1 (proj2 (round_trip_reaches_fixed_point Sample.ast_module tree eq_refl))).
Defined.

(** ** From the line of the encoder to the text of the decoder *)





(** ** Encoding again what was decoded *)

Lemma skipped_false (k : string) :
  Unparser.skipped k = false -> k <> "_type" /\ ~ In k position_keys.
Proof.
  unfold Unparser.skipped. intros H. apply orb_false_iff in H. destruct H as [Hp Hk].
  split.
  - intros ->. discriminate.
  - intros Hin. apply existsb_eqb_In in Hin. congruence.
Qed.

Lemma drop_positions_node (ast_module : string -> option Unparser.attribute)
    (c : class_info) (d : dict) :
  is_grammar_class ast_module c = true ->
  drop_positions (ast_to_dict (VNode c d))
  = VDict (("_type", VStr (c_name c))
           :: map (fun fv => (fst fv, drop_positions (ast_to_dict (snd fv))))
                (iter_fields c d)).
Proof.
  intros Hclass. apply is_grammar_class_spec in Hclass.
  destruct Hclass as (_ & Hnd & Hskip).
  rewrite ast_to_dict_node, copy_positions_header.
  rewrite fields_after_header;
    [|assumption|intros f Hf; now apply skipped_false, Hskip].
  cbn [app].
  cbn [drop_positions map fst snd].
  set (kept := fun kv : string * value =>
                 negb (existsb (String.eqb (fst kv)) position_keys)).
  cbn [filter]. change (kept ("_type", VStr (c_name c))) with true. cbv iota.
  f_equal. f_equal. rewrite map_app, filter_app. subst kept.
  assert (Hpos : filter (fun kv => negb (existsb (String.eqb (fst kv)) position_keys))
                   (map (fun kv => (fst kv, drop_positions (snd kv)))
                      (position_entries c d)) = []).
  { assert (H : forall k, In k (keys (position_entries c d)) -> In k position_keys)
      by apply keys_position_entries.
    induction (position_entries c d) as [|[k v] r IH]; [reflexivity|].
    cbn [map filter fst snd].
    assert (Hk : existsb (String.eqb k) position_keys = true).
    { apply existsb_eqb_In. apply H. now left. }
    rewrite Hk. cbn [negb]. apply IH. intros k' Hk'. apply H. now right. }
  rewrite Hpos. cbn [app]. rewrite map_map. cbn [fst snd].
  apply forallb_filter_id. apply forallb_forall.
  intros [k y] Hin. cbn [fst]. apply in_map_iff in Hin.
  destruct Hin as ([f x] & [= <- _] & Hx). cbn [fst] in *.
  apply in_iter_fields in Hx. destruct Hx as [Hf _].
  apply negb_true_iff. apply not_true_iff_false. rewrite existsb_eqb_In.
  exact (proj2 (skipped_false f (Hskip f Hf))).
Qed.

(** X11.  Encoding the tree that decoding returned gives the encoding of
    the original but for the entries of the four position keys. *)
Theorem reencoding_differs_in_positions_only
    (ast_module : string -> option Unparser.attribute) (v : value) :
  native ast_module v = true ->
  exists decoded,
    Unparser.dict_to_ast ast_module (ast_to_dict v) = Ok decoded /\
    drop_positions (ast_to_dict decoded) = drop_positions (ast_to_dict v).
Proof.
  intros Hnative. exists (fields_only v). split; [now apply round_trip|].
  revert Hnative.
  induction v as [ | | | | | | | | l IH | d IH | c d IH | ] using value_deep_ind;
    intros Hnative; try reflexivity.
  - (* a list *)
    cbn [native fields_only ast_to_dict drop_positions] in *.
    rewrite forallb_forall in Hnative. rewrite Forall_forall in IH.
    f_equal. rewrite !map_map. apply map_ext_in. intros x Hx. now apply IH; auto.
  - (* a node *)
    cbn [native] in Hnative. apply andb_true_iff in Hnative.
    destruct Hnative as [Hclass Hvalues]. rewrite forallb_forall in Hvalues.
    rewrite Forall_forall in IH. cbn [fields_only].
    rewrite !(drop_positions_node ast_module) by assumption.
    f_equal. f_equal.
    rewrite iter_fields_idempotent, (iter_fields_fields_only c d), map_map.
    apply map_ext_in. intros [f x] Hx. cbn [fst snd]. f_equal.
    apply in_iter_fields_value in Hx. destruct Hx as [Hx| ->]; [|reflexivity].
    apply (IH (f, x) Hx). apply (Hvalues (f, x) Hx).
Qed.

Lemma reencoding_differs_in_positions_only_witness :
  let tree := Sample.module_of
                [Sample.expr_stmt Sample.Name
                   [("id", VStr "x"); ("ctx", VNode Sample.Load [])] 1] in
  native Sample.ast_module tree = true /\
  exists decoded,
    Unparser.dict_to_ast Sample.ast_module (ast_to_dict tree) = Ok decoded /\
    drop_positions (ast_to_dict decoded) = drop_positions (ast_to_dict tree).
Proof.
  intros tree. split.
  - reflexivity.
  - exact (reencoding_differs_in_positions_only Sample.ast_module tree eq_refl).
Defined.
